(** * Intrusion-detection dashboard (app.py): label resolution, store
      queries, timestamp display and the three HTTP handlers.

    The Python program is embedded shallowly.  Python values are a small
    inductive type, exceptions are values of an error type, and every
    routine that touches the database file or standard output is a function
    from a [world] to a result and a new [world].  The SQLite engine, the
    Python built-ins [int] and [float], [datetime.fromtimestamp] and Flask's
    [render_template] are libraries the program calls; their documented
    behaviour is modelled next to the code that uses them. *)

From Stdlib Require Import ZArith List String Ascii Bool Lia SpecFloat Sorted.
From stdpp Require Import base option list gmap strings.
Import ListNotations.

Local Set Warnings "-register-all".
Local Open Scope string_scope.
Local Open Scope list_scope.

(* ===================================================================== *)
(** ** Python values, exceptions and results *)
(* ===================================================================== *)

(** A Python [float] is an IEEE-754 binary64 number. *)
Definition float : Type := spec_float.

Definition PREC : Z := 53.
Definition EMAX : Z := 1024.

Inductive py_value : Type :=
  | PyNone
  | PyInt (z : Z)
  | PyFloat (f : float)
  | PyStr (s : string)
  | PyList (items : list py_value)
  | PyDict (entries : list (string * py_value)).

(** The exception classes that the modelled library calls can raise. *)
Inductive exn_class : Type :=
  | ValueError
  | TypeError
  | OverflowError
  | OSError
  | IndexError
  | UnboundLocalError
  | OperationalError      (* sqlite3.OperationalError *)
  | DatabaseError         (* sqlite3.DatabaseError *)
  | TemplateError.        (* any exception out of the template engine *)

Record exn : Type := Exn { exn_class_of : exn_class; exn_message : string }.

(** [isinstance(e, sqlite3.Error)] *)
Definition is_sqlite3_Error (e : exn) : bool :=
  match exn_class_of e with
  | OperationalError | DatabaseError => true
  | _ => false
  end.

(** [isinstance(e, (ValueError, TypeError))] *)
Definition is_ValueError_or_TypeError (e : exn) : bool :=
  match exn_class_of e with
  | ValueError | TypeError => true
  | _ => false
  end.

(** [str(e)] *)
Definition str_of_exn (e : exn) : string := exn_message e.

Inductive result (A : Type) : Type :=
  | Ok (a : A)
  | Raise (e : exn).
Arguments Ok {A} a.
Arguments Raise {A} e.

Definition rbind {A B : Type} (r : result A) (k : A -> result B) : result B :=
  match r with
  | Ok a => k a
  | Raise e => Raise e
  end.

Declare Scope result_scope.
Delimit Scope result_scope with result.
Notation "x <~ r ;; k" := (rbind r (fun x => k))
  (at level 100, r at next level, right associativity) : result_scope.

(** *** Python dictionaries

    A [dict] keeps its keys in insertion order; assigning to a key that is
    already present replaces the value and leaves the key where it was. *)
Definition dict (V : Type) : Type := list (string * V).

Fixpoint dict_get {V : Type} (k : string) (d : dict V) : option V :=
  match d with
  | [] => None
  | (k', v) :: d' => if String.eqb k' k then Some v else dict_get k d'
  end.

Fixpoint dict_set {V : Type} (k : string) (v : V) (d : dict V) : dict V :=
  match d with
  | [] => [(k, v)]
  | (k', v') :: d' =>
      if String.eqb k' k then (k', v) :: d' else (k', v') :: dict_set k v d'
  end.

Definition dict_keys {V : Type} (d : dict V) : list string := map fst d.

(** [row[key]] on a [sqlite3.Row]. *)
Definition row_getitem (row : dict py_value) (k : string) : result py_value :=
  match dict_get k row with
  | Some v => Ok v
  | None => Raise (Exn IndexError "No item with that key")
  end.

(** [int(f)] for a float: truncation towards zero. *)
Definition trunc_float (f : float) : result Z :=
  match f with
  | S754_zero _ => Ok 0%Z
  | S754_infinity _ =>
      Raise (Exn OverflowError "cannot convert float infinity to integer")
  | S754_nan => Raise (Exn ValueError "cannot convert float NaN to integer")
  | S754_finite s m e =>
      let a := match e with
               | Zneg p => Z.shiftr (Zpos m) (Zpos p)
               | _ => Z.shiftl (Zpos m) e
               end in
      Ok (if s then Z.opp a else a)
  end.

(** [float(z)] for an int: nearest binary64, [OverflowError] beyond range. *)
Definition float_of_int (z : Z) : result float :=
  match binary_normalize PREC EMAX z 0 false with
  | S754_infinity _ => Raise (Exn OverflowError "int too large to convert to float")
  | f => Ok f
  end.

Section Builtins.
(** The numeric-literal grammars of [int(str)] and [float(str)]: [None]
    when the text is not a literal. *)
Variable parse_int : string -> option Z.
Variable parse_float : string -> option float.

(** [int(value)] *)
Definition py_int (value : py_value) : result Z :=
  match value with
  | PyInt z => Ok z
  | PyFloat f => trunc_float f
  | PyStr s =>
      match parse_int s with
      | Some z => Ok z
      | None =>
          Raise (Exn ValueError ("invalid literal for int() with base 10: " ++ s))
      end
  | PyNone | PyList _ | PyDict _ =>
      Raise (Exn TypeError
        "int() argument must be a string, a bytes-like object or a real number")
  end.

(** [float(value)] *)
Definition py_float (value : py_value) : result float :=
  match value with
  | PyFloat f => Ok f
  | PyInt z => float_of_int z
  | PyStr s =>
      match parse_float s with
      | Some f => Ok f
      | None => Raise (Exn ValueError ("could not convert string to float: " ++ s))
      end
  | PyNone | PyList _ | PyDict _ =>
      Raise (Exn TypeError "float() argument must be a string or a real number")
  end.
End Builtins.

(* ===================================================================== *)
(** ** The detection store (SQLite) *)
(* ===================================================================== *)

(** One row of [detections], typed as the table declares its columns. *)
Record row : Type := Row {
  id : Z;
  timestamp : float;
  source_ip : string;
  destination_ip : string;
  classification : Z
}.

Record column : Type := Column { col_name : string; col_decl : string }.

(** A table: the columns of its CREATE TABLE statement and its rows in
    rowid order.  Rows are held in the five-column layout of [init_db]; of
    a table declared otherwise the queries see the declared column names,
    and fail on a name that is not declared. *)
Record table : Type := Table { tbl_columns : list column; tbl_rows : list row }.

(** The database file holds the [detections] table or does not. *)
Record database : Type := Db { detections : option table }.

(** The column list of the CREATE TABLE statement in [init_db]. *)
Definition DETECTIONS_COLUMNS : list column :=
  [ Column "id" "INTEGER PRIMARY KEY AUTOINCREMENT";
    Column "timestamp" "REAL NOT NULL";
    Column "source_ip" "TEXT NOT NULL";
    Column "destination_ip" "TEXT NOT NULL";
    Column "classification" "INTEGER NOT NULL" ].

Definition has_column (t : table) (name : string) : bool :=
  existsb (fun c => String.eqb (col_name c) name) (tbl_columns t).

(** [CREATE TABLE IF NOT EXISTS detections (...)] *)
Definition create_table_if_not_exists (db : database) : database :=
  match detections db with
  | Some _ => db
  | None => Db (Some (Table DETECTIONS_COLUMNS []))
  end.

(** SQLite orders REAL values numerically.  A NaN is never stored (SQLite
    turns it into NULL); the comparison places it below every number, where
    SQLite places NULL. *)
Definition real_compare (a b : float) : comparison :=
  match SFcompare a b with
  | Some c => c
  | None =>
      match a, b with
      | S754_nan, S754_nan => Eq
      | S754_nan, _ => Lt
      | _, _ => Gt
      end
  end.

Definition real_leb (a b : float) : bool :=
  match real_compare a b with
  | Gt => false
  | _ => true
  end.

(** [ORDER BY timestamp DESC]: rows with equal timestamps stay in rowid
    order, which is what the SQLite sorter yields; SQL leaves it open. *)
Fixpoint insert_desc (r : row) (sorted : list row) : list row :=
  match sorted with
  | [] => [r]
  | x :: rest =>
      if real_leb (timestamp x) (timestamp r)
      then r :: sorted
      else x :: insert_desc r rest
  end.

Definition order_by_timestamp_desc (rows : list row) : list row :=
  fold_right insert_desc [] rows.

(** [SELECT * FROM detections ORDER BY timestamp DESC LIMIT limit] *)
Definition select_recent (limit : nat) (rows : list row) : list row :=
  firstn limit (order_by_timestamp_desc rows).

(** [GROUP BY classification] with [COUNT( * )]: one (key, count) pair per
    distinct key, keys ascending as SQLite's grouping sorter emits them. *)
Fixpoint count_into (c : Z) (groups : list (Z * Z)) : list (Z * Z) :=
  match groups with
  | [] => [(c, 1%Z)]
  | (k, n) :: rest =>
      if (c =? k)%Z then (k, (n + 1)%Z) :: rest
      else if (c <? k)%Z then (c, 1%Z) :: groups
      else (k, n) :: count_into c rest
  end.

(** [SELECT classification, COUNT( * ) as count FROM detections
     GROUP BY classification] *)
Definition select_counts (rows : list row) : list (Z * Z) :=
  fold_left (fun groups r => count_into (classification r) groups) rows [].

(** What [fetchall()] hands to Python: one [sqlite3.Row] per result row,
    addressable by column name, columns in declaration order. *)
Definition detection_Row (r : row) : dict py_value :=
  [ ("id", PyInt (id r));
    ("timestamp", PyFloat (timestamp r));
    ("source_ip", PyStr (source_ip r));
    ("destination_ip", PyStr (destination_ip r));
    ("classification", PyInt (classification r)) ].

Definition count_Row (g : Z * Z) : dict py_value :=
  [ ("classification", PyInt (fst g)); ("count", PyInt (snd g)) ].

(* ===================================================================== *)
(** ** Process state and the effect monad *)
(* ===================================================================== *)

(** What is found at DB_PATH. *)
Inductive file_state : Type :=
  | Unopenable                 (* sqlite3.connect fails *)
  | Corrupt                    (* opens, but is not a database *)
  | Database (db : database).

Record world : Type := World {
  LABEL_MAP : gmap Z string;   (* module global, bound once at import *)
  disk : file_state;           (* the file at DB_PATH *)
  open_connections : nat;
  stdout : list string
}.

Definition M (A : Type) : Type := world -> result A * world.

Definition ret {A : Type} (a : A) : M A := fun w => (Ok a, w).

Definition raise {A : Type} (e : exn) : M A := fun w => (Raise e, w).

Definition bind {A B : Type} (m : M A) (k : A -> M B) : M B :=
  fun w =>
    match m w with
    | (Ok a, w') => k a w'
    | (Raise e, w') => (Raise e, w')
    end.

Definition lift {A : Type} (r : result A) : M A := fun w => (r, w).

Declare Scope py_scope.
Delimit Scope py_scope with py.
Notation "x <- m ;; k" := (bind m (fun x => k))
  (at level 100, m at next level, right associativity) : py_scope.
Notation "m ;;; k" := (bind m (fun _ => k))
  (at level 100, right associativity) : py_scope.

(** [try: m  except <classes matched by catches> as e: handler e] *)
Definition try_except {A : Type} (m : M A) (catches : exn -> bool)
    (handler : exn -> M A) : M A :=
  fun w =>
    match m w with
    | (Ok a, w') => (Ok a, w')
    | (Raise e, w') => if catches e then handler e w' else (Raise e, w')
    end.

(** [try: m  finally: cleanup]; an exception out of [cleanup] replaces the
    outcome of [m]. *)
Definition try_finally {A : Type} (m : M A) (cleanup : M unit) : M A :=
  fun w =>
    match m w with
    | (r, w') =>
        match cleanup w' with
        | (Ok _, w'') => (r, w'')
        | (Raise e, w'') => (Raise e, w'')
        end
    end.

Definition any_Exception (e : exn) : bool := true.

(** [print(line)] *)
Definition print (line : string) : M unit :=
  fun w => (Ok tt, World (LABEL_MAP w) (disk w) (open_connections w) (stdout w ++ [line])).

(** [labels.get(key, default)] on a dict with integer keys. *)
Definition label_map_get (labels : gmap Z string) (key : Z) (default : string) : string :=
  match labels !! key with
  | Some label => label
  | None => default
  end.

(** [LABEL_MAP.get(key, default)], reading the module global. *)
Definition LABEL_MAP_get (key : Z) (default : string) : M string :=
  fun w => (Ok (label_map_get (LABEL_MAP w) key default), w).

(** *** sqlite3 calls *)

Inductive connection : Type := Conn.

(** [sqlite3.connect(DB_PATH)] *)
Definition sqlite3_connect : M connection :=
  fun w =>
    match disk w with
    | Unopenable => (Raise (Exn OperationalError "unable to open database file"), w)
    | _ => (Ok Conn, World (LABEL_MAP w) (disk w) (S (open_connections w)) (stdout w))
    end.

(** [conn.close()] *)
Definition conn_close (conn : connection) : M unit :=
  fun w => (Ok tt, World (LABEL_MAP w) (disk w) (pred (open_connections w)) (stdout w)).

Definition not_a_database : exn := Exn DatabaseError "file is not a database".
Definition no_such_table : exn := Exn OperationalError "no such table: detections".
Definition no_such_column (c : string) : exn :=
  Exn OperationalError ("no such column: " ++ c).

(** [conn.execute("CREATE TABLE IF NOT EXISTS detections (...)")] followed
    by [conn.commit()] *)
Definition execute_create_table (conn : connection) : M unit :=
  fun w =>
    match disk w with
    | Database db =>
        (Ok tt, World (LABEL_MAP w) (Database (create_table_if_not_exists db))
                      (open_connections w) (stdout w))
    | _ => (Raise not_a_database, w)
    end.

(** Reading the [detections] table for a query that names [col]. *)
Definition read_detections (col : string) : M (list row) :=
  fun w =>
    match disk w with
    | Database db =>
        match detections db with
        | Some t =>
            if has_column t col then (Ok (tbl_rows t), w)
            else (Raise (no_such_column col), w)
        | None => (Raise no_such_table, w)
        end
    | _ => (Raise not_a_database, w)
    end.

(** The LIMIT of the recent-rows query in [dashboard] and
    [api_detections]. *)
Definition RECENT_LIMIT : nat := 100.

(** [conn.execute("SELECT * FROM detections ORDER BY timestamp DESC
     LIMIT 100").fetchall()] *)
Definition execute_select_recent (conn : connection) : M (list (dict py_value)) :=
  (rows <- read_detections "timestamp" ;;
   ret (map detection_Row (select_recent RECENT_LIMIT rows)))%py.

(** [conn.execute("SELECT classification, COUNT( * ) as count FROM detections
     GROUP BY classification").fetchall()] *)
Definition execute_select_counts (conn : connection) : M (list (dict py_value)) :=
  (rows <- read_detections "classification" ;;
   ret (map count_Row (select_counts rows)))%py.

(* ===================================================================== *)
(** ** datetime.fromtimestamp and strftime *)
(* ===================================================================== *)

(** The broken-down local time that the platform's [localtime] returns. *)
Record struct_time : Type := StructTime {
  tm_year : Z; tm_mon : Z; tm_mday : Z; tm_hour : Z; tm_min : Z; tm_sec : Z
}.

Record datetime : Type := Datetime {
  year : Z; month : Z; day : Z; hour : Z; minute : Z; second : Z;
  microsecond : Z
}.

Definition MINYEAR : Z := 1.
Definition MAXYEAR : Z := 9999.

(** The float 1000000.0 *)
Definition ONE_MILLION : float := S754_finite false 8589934592000000 (-33).

(** C [modf] on a finite non-zero float: the integral part, as an integer,
    and the fractional part, both carrying the sign of the argument. *)
Definition modf (s : bool) (m : positive) (e : Z) : Z * float :=
  match e with
  | Zneg p =>
      let q := Z.shiftr (Zpos m) (Zpos p) in
      let r := (Zpos m - Z.shiftl q (Zpos p))%Z in
      (if s then Z.opp q else q,
       binary_normalize PREC EMAX (if s then Z.opp r else r) e s)
  | _ =>
      let q := Z.shiftl (Zpos m) e in
      (if s then Z.opp q else q, S754_zero s)
  end.

(** Rounding a finite float to the nearest integer, ties to the even one. *)
Definition round_half_even (x : float) : Z :=
  match x with
  | S754_finite s m (Zneg p) =>
      let q := Z.shiftr (Zpos m) (Zpos p) in
      let r := (Zpos m - Z.shiftl q (Zpos p))%Z in
      let a := match (2 * r ?= Z.shiftl 1 (Zpos p))%Z with
               | Lt => q
               | Gt => (q + 1)%Z
               | Eq => if Z.even q then q else (q + 1)%Z
               end in
      if s then Z.opp a else a
  | S754_finite s m e =>
      let a := Z.shiftl (Zpos m) e in if s then Z.opp a else a
  | _ => 0%Z
  end.

Definition time_t_overflow : exn :=
  Exn OverflowError "timestamp out of range for platform time_t".

(** A 64-bit [time_t]. *)
Definition in_time_t (sec : Z) : bool :=
  ((- 2 ^ 63 <=? sec) && (sec <? 2 ^ 63))%Z.

(** The split of a timestamp into whole seconds and microseconds that
    [fromtimestamp] performs before it asks for the local time: the
    fraction is scaled by 1e6 in float arithmetic and rounded half-even;
    a carry moves into the seconds. *)
Definition timestamp_to_timeval (t : float) : result (Z * Z) :=
  match t with
  | S754_nan => Raise (Exn ValueError "Invalid value NaN (not a number)")
  | S754_infinity _ => Raise time_t_overflow
  | S754_zero _ => Ok (0%Z, 0%Z)
  | S754_finite s m e =>
      let '(intpart, frac) := modf s m e in
      let us := round_half_even (SFmul PREC EMAX frac ONE_MILLION) in
      let '(sec, us) :=
        if (1000000 <=? us)%Z then ((intpart + 1)%Z, (us - 1000000)%Z)
        else if (us <? 0)%Z then ((intpart - 1)%Z, (us + 1000000)%Z)
        else (intpart, us) in
      if in_time_t sec then Ok (sec, us) else Raise time_t_overflow
  end.

(** The last [width] decimal digits of [n], most significant first. *)
Fixpoint decimal_digits (width : nat) (n : Z) : string :=
  match width with
  | O => ""
  | S w =>
      decimal_digits w (n / 10)
      ++ String (ascii_of_nat (48 + Z.to_nat (n mod 10))) ""
  end.

(** [d.strftime('%Y-%m-%d %H:%M:%S')], each field zero-padded to its
    width. *)
Definition strftime (d : datetime) : string :=
  decimal_digits 4 (year d) ++ "-" ++ decimal_digits 2 (month d) ++ "-"
  ++ decimal_digits 2 (day d) ++ " " ++ decimal_digits 2 (hour d) ++ ":"
  ++ decimal_digits 2 (minute d) ++ ":" ++ decimal_digits 2 (second d).

Section TimestampDisplay.
Variable parse_float : string -> option float.

(** The platform's [localtime] with its time-zone rules: broken-down
    local time for a [time_t], or the error it reports. *)
Variable localtime : Z -> result struct_time.

(** [datetime.fromtimestamp(t)].  As the library documents it: a
    [ValueError] for NaN and for a year outside MINYEAR..MAXYEAR, an
    [OverflowError] for a timestamp outside the range of [time_t], and
    whatever the platform's [localtime] reports ([OSError],
    [OverflowError]). *)
Definition fromtimestamp (t : float) : result datetime :=
  (tv <~ timestamp_to_timeval t ;;
   tm <~ localtime (fst tv) ;;
   if ((MINYEAR <=? tm_year tm) && (tm_year tm <=? MAXYEAR))%Z
   then Ok (Datetime (tm_year tm) (tm_mon tm) (tm_mday tm) (tm_hour tm)
                     (tm_min tm) (Z.min (tm_sec tm) 59) (snd tv))
   else Raise (Exn ValueError "year is out of range"))%result.

(** app.py, [datetime_filter] *)
Definition datetime_filter (value : py_value) : result string :=
  match (f <~ py_float parse_float value ;;
         d <~ fromtimestamp f ;;
         Ok (strftime d))%result with
  | Ok s => Ok s
  | Raise e =>
      if is_ValueError_or_TypeError e then Ok "Invalid timestamp" else Raise e
  end.
End TimestampDisplay.

(* ===================================================================== *)
(** ** app.py: label map, store initialisation and the three handlers *)
(* ===================================================================== *)

(** [enumerate(xs)], counting from [start]. *)
Fixpoint enumerate_from {A : Type} (start : Z) (xs : list A) : list (Z * A) :=
  match xs with
  | [] => []
  | x :: xs' => (start, x) :: enumerate_from (start + 1) xs'
  end.

(** [dict(pairs)] for integer keys: a later pair replaces an earlier one. *)
Definition dict_of_pairs (pairs : list (Z * string)) : gmap Z string :=
  fold_left (fun m kv => <[fst kv := snd kv]> m) pairs ∅.

(** [LABEL_MAP = dict(enumerate(label_encoder.classes_))] *)
Definition make_LABEL_MAP (classes_ : list string) : gmap Z string :=
  dict_of_pairs (enumerate_from 0 classes_).

(** A response: the body and the HTTP status (200 when the view returns
    the body alone). *)
Inductive body : Type :=
  | Text (s : string)            (* a str returned by the view *)
  | Jsonify (v : py_value).      (* jsonify(v) *)

Definition response : Type := (body * Z)%type.

(** [[f(x) for x in xs]] *)
Fixpoint list_comprehension {A B : Type} (f : A -> M B) (xs : list A) : M (list B) :=
  match xs with
  | [] => ret []
  | x :: xs' =>
      (y <- f x ;; ys <- list_comprehension f xs' ;; ret (y :: ys))%py
  end.

(** [{key(x): value(x) for x in xs}], built left to right into [acc]. *)
Fixpoint dict_comprehension {A V : Type} (key : A -> M string) (value : A -> M V)
    (xs : list A) (acc : dict V) : M (dict V) :=
  match xs with
  | [] => ret acc
  | x :: xs' =>
      (k <- key x ;; v <- value x ;;
       dict_comprehension key value xs' (dict_set k v acc))%py
  end.

(** app.py, [init_db] *)
Definition init_db : M unit :=
  (conn <- sqlite3_connect ;;
   try_finally
     (try_except (execute_create_table conn) is_sqlite3_Error
        (fun e => print ("Database initialization error: " ++ str_of_exn e)))
     (conn_close conn))%py.

(** app.py, [get_db_connection] *)
Definition get_db_connection : M (option connection) :=
  try_except
    (conn <- sqlite3_connect ;; ret (Some conn))%py
    is_sqlite3_Error
    (fun e =>
       (print ("Database connection error: " ++ str_of_exn e) ;;; ret None)%py).

(** The frame the three handlers share:
    [try: conn = get_db_connection(); <body>
     except Exception as e: <on_error>
     finally: if conn: conn.close()] *)
Definition with_connection (handle : option connection -> M response)
    (on_error : exn -> M response) : M response :=
  fun w =>
    match get_db_connection w with
    | (Ok conn, w1) =>
        try_finally
          (try_except (handle conn) any_Exception on_error)
          (match conn with Some c => conn_close c | None => ret tt end)
          w1
    | (Raise e, w1) =>
        (* [conn] was never bound: the finally clause fails on the name *)
        try_finally
          (on_error e)
          (raise (Exn UnboundLocalError "cannot access local variable 'conn'"))
          w1
    end.

Section Handlers.
Variable parse_int : string -> option Z.

(** Flask's [render_template(name, **context)]: the page, or the
    exception the template engine raises. *)
Variable render_template : string -> dict py_value -> result string.

(** [LABEL_MAP.get(int(row['classification']), "Unknown")] *)
Definition label_of_Row (row : dict py_value) : M string :=
  (v <- lift (row_getitem row "classification") ;;
   k <- lift (py_int parse_int v) ;;
   LABEL_MAP_get k "Unknown")%py.

(** [dict(row, classification=LABEL_MAP.get(...))] *)
Definition with_label (row : dict py_value) : M (dict py_value) :=
  (label <- label_of_Row row ;;
   ret (dict_set "classification" (PyStr label) row))%py.

(** [{LABEL_MAP.get(...): row['count'] for row in stats}] *)
Definition stats_by_label (stats : list (dict py_value)) : M (dict py_value) :=
  dict_comprehension label_of_Row (fun row => lift (row_getitem row "count"))
    stats [].

(** app.py, [dashboard] *)
Definition dashboard : M response :=
  with_connection
    (fun conn =>
       match conn with
       | None => ret (Text "Database connection error", 500%Z)
       | Some c =>
           (detections <- execute_select_recent c ;;
            detections_with_types <- list_comprehension with_label detections ;;
            stats <- execute_select_counts c ;;
            stats_dict <- stats_by_label stats ;;
            page <- lift (render_template "dashboard.html"
                      [ ("detections", PyList (map PyDict detections_with_types));
                        ("stats", PyDict stats_dict) ]) ;;
            ret (Text page, 200%Z))%py
       end)
    (fun e =>
       (print ("Dashboard error: " ++ str_of_exn e) ;;;
        ret (Text ("An error occurred: " ++ str_of_exn e), 500%Z))%py).

Definition json_error (message : string) : response :=
  (Jsonify (PyDict [("error", PyStr message)]), 500%Z).

(** app.py, [api_detections] *)
Definition api_detections : M response :=
  with_connection
    (fun conn =>
       match conn with
       | None => ret (json_error "Database connection error")
       | Some c =>
           (detections <- execute_select_recent c ;;
            items <- list_comprehension with_label detections ;;
            ret (Jsonify (PyList (map PyDict items)), 200%Z))%py
       end)
    (fun e => ret (json_error (str_of_exn e))).

(** app.py, [api_stats] *)
Definition api_stats : M response :=
  with_connection
    (fun conn =>
       match conn with
       | None => ret (json_error "Database connection error")
       | Some c =>
           (stats <- execute_select_counts c ;;
            stats_dict <- stats_by_label stats ;;
            ret (Jsonify (PyDict stats_dict), 200%Z))%py
       end)
    (fun e => ret (json_error (str_of_exn e))).
End Handlers.

(** Importing the module: the label map is bound from the loaded encoder's
    [classes_], then [init_db()] runs. *)
Definition import_app (classes_ : list string) (file : file_state) : result unit * world :=
  init_db (World (make_LABEL_MAP classes_) file 0 []).

(** The store as [init_db] lays it out, holding [rows]. *)
Definition detections_store (rows : list row) : file_state :=
  Database (Db (Some (Table DETECTIONS_COLUMNS rows))).

(** The sum of the integer values of a dict of counts. *)
Definition sum_counts (d : dict py_value) : Z :=
  fold_right (fun kv acc => match snd kv with PyInt n => (n + acc)%Z | _ => acc end)
    0%Z d.

(** The dict that [stats_by_label] builds from the (key, count) pairs of
    the grouping query, written without the effect monad; see
    [stats_by_label_run]. *)
Definition label_buckets (labels : gmap Z string) (groups : list (Z * Z))
    (acc : dict py_value) : dict py_value :=
  fold_left
    (fun acc g => dict_set (label_map_get labels (fst g) "Unknown") (PyInt (snd g)) acc)
    groups acc.

(** The object [with_label] builds from a stored row, written without the
    effect monad; see [with_label_run]. *)
Definition labelled (labels : gmap Z string) (r : row) : dict py_value :=
  dict_set "classification"
    (PyStr (label_map_get labels (classification r) "Unknown")) (detection_Row r).

(** Newest first: [a] may stand before [b]. *)
Definition not_older (a b : row) : Prop :=
  real_leb (timestamp b) (timestamp a) = true.

(* ===================================================================== *)
(** ** Vocabulary of the statements *)
(* ===================================================================== *)

Definition sum_of (counts : list Z) : Z := fold_right Z.add 0%Z counts.

(** The context [dashboard] hands to the template. *)
Definition dashboard_context (labels : gmap Z string) (rows : list row) : dict py_value :=
  [ ("detections", PyList (map PyDict (map (labelled labels) (select_recent RECENT_LIMIT rows))));
    ("stats", PyDict (label_buckets labels (select_counts rows) [])) ].

(** What the list endpoint may change in a row: nothing but the
    classification entry. *)
Definition only_classification_replaced (labels : gmap Z string) (r : row)
    (item : dict py_value) : Prop :=
  dict_keys item = dict_keys (detection_Row r)
  /\ dict_get "classification" item
     = Some (PyStr (label_map_get labels (classification r) "Unknown"))
  /\ dict_get "classification" item <> dict_get "classification" (detection_Row r)
  /\ dict_get "id" item = Some (PyInt (id r))
  /\ dict_get "timestamp" item = Some (PyFloat (timestamp r))
  /\ dict_get "source_ip" item = Some (PyStr (source_ip r))
  /\ dict_get "destination_ip" item = Some (PyStr (destination_ip r))
  /\ forall key, key <> "classification" ->
       dict_get key item = dict_get key (detection_Row r).

(** An endpoint that answers [resp] from the label map [labels] and the
    file [file] whatever else the process state holds, and changes nothing
    but standard output, to which it appends [log]. *)
Definition answers (endpoint : M response) (labels : gmap Z string)
    (file : file_state) (resp : response) (log : list string) : Prop :=
  forall n out,
    endpoint (World labels file n out) = (Ok resp, World labels file n (out ++ log)).

(** The float nearest to 10^300, the value of the literal [1e300]. *)
Definition FLOAT_1E300 : float := binary_normalize PREC EMAX (10 ^ 300) 0 false.

(** *** Concrete inputs *)

Definition example_labels : gmap Z string := make_LABEL_MAP ["BENIGN"; "Bot"].

Definition example_time (seconds : Z) : float :=
  binary_normalize PREC EMAX seconds 0 false.

Definition example_row (i seconds c : Z) : row :=
  Row i (example_time seconds) "10.0.0.5" "10.0.0.9" c.

(** Three rows whose classifications 98, 99, 99 have no entry in the label
    map of the examples. *)
Definition example_unmapped_rows : list row :=
  [ example_row 1 1700000000 98; example_row 2 1700000060 99;
    example_row 3 1700000120 99 ].

(** Four rows with the classifications 0, 1, 0, 99. *)
Definition example_mixed_rows : list row :=
  [ example_row 1 1700000000 0; example_row 2 1700000060 1;
    example_row 3 1700000120 0; example_row 4 1700000180 99 ].

(** Seven rows with a tie at 7.0 and at 5.0, an infinite and a very large
    timestamp, and two unmapped classifications. *)
Definition example_store_rows : list row :=
  [ Row 1 (example_time 5) "10.0.0.5" "10.0.0.9" 99;
    Row 2 (example_time 7) "10.0.0.5" "10.0.0.9" 0;
    Row 3 (example_time 5) "10.0.0.6" "10.0.0.9" 98;
    Row 4 (S754_infinity false) "10.0.0.7" "10.0.0.9" 1;
    Row 5 (example_time 7) "10.0.0.8" "10.0.0.9" 0;
    Row 6 FLOAT_1E300 "10.0.0.8" "10.0.0.9" 99;
    Row 7 (example_time 3) "10.0.0.8" "10.0.0.9" 0 ].

(** A platform [localtime] for the examples: UTC, for times within the
    first day of 1970. *)
Definition example_localtime (sec : Z) : result struct_time :=
  if ((0 <=? sec) && (sec <? 86400))%Z
  then Ok (StructTime 1970 1 1 (sec / 3600) (sec mod 3600 / 60) (sec mod 60))
  else Raise (Exn OSError "Value too large for defined data type").

(** A template engine that knows the dashboard page only. *)
Definition example_render (name : string) (context : dict py_value) : result string :=
  if String.eqb name "dashboard.html"
  then Ok "<h1>Detections</h1>"
  else Raise (Exn TemplateError name).

(** *** Counting rows and reading responses *)

(** The number of rows that carry the classification [k]. *)
Definition rows_with (k : Z) (rows : list row) : Z :=
  Z.of_nat (length (List.filter (fun r => (classification r =? k)%Z) rows)).

(** The counts that a list of (key, count) groups holds under the key
    [k], added up. *)
Definition count_of (k : Z) (groups : list (Z * Z)) : Z :=
  fold_right (fun g acc => if (fst g =? k)%Z then (snd g + acc)%Z else acc) 0%Z groups.

(** The label that the handlers show for a row. *)
Definition label_of (labels : gmap Z string) (r : row) : string :=
  label_map_get labels (classification r) "Unknown".


(** A platform [localtime] for the examples that places every time in the
    year 33658. *)
Definition example_far_localtime (sec : Z) : result struct_time :=
  Ok (StructTime 33658 9 27 1 46 40).

(* ===================================================================== *)
(** ** Facts about dictionaries and the label map *)
(* ===================================================================== *)

Lemma dict_get_set {V : Type} (k k' : string) (v : V) (d : dict V) :
  dict_get k' (dict_set k v d) = if String.eqb k k' then Some v else dict_get k' d.
Proof.
  induction d as [|[k0 v0] d IH]; simpl.
  - reflexivity.
  - destruct (String.eqb_spec k0 k) as [->|Hne]; simpl.
    + destruct (String.eqb k k'); reflexivity.
    + rewrite IH. destruct (String.eqb_spec k0 k') as [->|Hne'].
      * destruct (String.eqb_spec k k') as [->|_]; [contradiction | reflexivity].
      * reflexivity.
Qed.

Lemma dict_get_set_same {V : Type} (k : string) (v : V) (d : dict V) :
  dict_get k (dict_set k v d) = Some v.
Proof. rewrite dict_get_set, String.eqb_refl. reflexivity. Qed.

Lemma dict_get_set_other {V : Type} (k k' : string) (v : V) (d : dict V) :
  k' <> k -> dict_get k' (dict_set k v d) = dict_get k' d.
Proof.
  intros Hne. rewrite dict_get_set.
  destruct (String.eqb_spec k k') as [->|_]; [contradiction | reflexivity].
Qed.

Lemma dict_get_None_keys {V : Type} (k : string) (d : dict V) :
  dict_get k d = None <-> k ∉ dict_keys d.
Proof.
  induction d as [|[k0 v0] d IH]; simpl.
  - split; [intros _; apply not_elem_of_nil | reflexivity].
  - rewrite not_elem_of_cons. destruct (String.eqb_spec k0 k) as [->|Hne].
    + split; [discriminate | intros [H _]; contradiction].
    + rewrite IH. split; [intros H; split; [congruence | exact H] | tauto].
Qed.

(** Assigning to a present key keeps the key list; a new key goes last. *)
Lemma dict_keys_set {V : Type} (k : string) (v : V) (d : dict V) :
  dict_keys (dict_set k v d)
  = match dict_get k d with
    | Some _ => dict_keys d
    | None => dict_keys d ++ [k]
    end.
Proof.
  induction d as [|[k0 v0] d IH]; simpl.
  - reflexivity.
  - destruct (String.eqb k0 k); simpl.
    + reflexivity.
    + rewrite IH. destruct (dict_get k d); reflexivity.
Qed.

Lemma dict_set_fresh {V : Type} (k : string) (v : V) (d : dict V) :
  dict_get k d = None -> dict_set k v d = d ++ [(k, v)].
Proof.
  induction d as [|[k0 v0] d IH]; simpl.
  - reflexivity.
  - destruct (String.eqb k0 k); [discriminate |].
    intros H. now rewrite IH.
Qed.

Lemma dict_keys_set_NoDup {V : Type} (k : string) (v : V) (d : dict V) :
  NoDup (dict_keys d) -> NoDup (dict_keys (dict_set k v d)).
Proof.
  intros Hd. rewrite dict_keys_set.
  destruct (dict_get k d) eqn:Hk; [exact Hd |].
  apply dict_get_None_keys in Hk.
  apply NoDup_app; split; [exact Hd | split].
  - intros x Hx Hx'. apply list_elem_of_singleton in Hx'. congruence.
  - apply NoDup_singleton.
Qed.

Lemma enumerate_lookup (classes_ : list string) (start : Z) (acc : gmap Z string) (i : Z) :
  fold_left (fun m kv => <[fst kv := snd kv]> m) (enumerate_from start classes_) acc !! i
  = if ((start <=? i) && (i <? start + Z.of_nat (length classes_)))%Z
    then classes_ !! Z.to_nat (i - start)
    else acc !! i.
Proof.
  revert start acc. induction classes_ as [|c cs IH]; intros start acc.
  - simpl. destruct (Z.leb_spec start i); simpl; [| reflexivity].
    destruct (Z.ltb_spec i (start + Z.of_nat 0)); [lia | reflexivity].
  - cbn [enumerate_from fold_left fst snd length]. rewrite IH.
    rewrite Nat2Z.inj_succ.
    replace (start + 1 + Z.of_nat (length cs))%Z
      with (start + Z.succ (Z.of_nat (length cs)))%Z by lia.
    destruct (Z.ltb_spec i (start + Z.succ (Z.of_nat (length cs)))) as [Hhi|Hhi];
      rewrite ?andb_true_r, ?andb_false_r.
    + destruct (Z.leb_spec (start + 1) i) as [Hlo|Hlo].
      * destruct (Z.leb_spec start i); [| lia].
        replace (Z.to_nat (i - start)) with (S (Z.to_nat (i - (start + 1)))) by lia.
        reflexivity.
      * destruct (Z.leb_spec start i).
        -- assert (i = start) as -> by lia.
           rewrite lookup_insert_eq, Z.sub_diag. reflexivity.
        -- rewrite lookup_insert_ne by lia. reflexivity.
    + rewrite lookup_insert_ne by lia. reflexivity.
Qed.

(** The label map binds exactly the indices of [classes_], each to the
    class name at that index. *)
Lemma make_LABEL_MAP_lookup (classes_ : list string) (i : Z) :
  make_LABEL_MAP classes_ !! i
  = if (0 <=? i)%Z then classes_ !! Z.to_nat i else None.
Proof.
  unfold make_LABEL_MAP, dict_of_pairs. rewrite enumerate_lookup.
  rewrite lookup_empty, Z.sub_0_r, Z.add_0_l.
  destruct (Z.leb_spec 0 i); simpl; [| reflexivity].
  destruct (Z.ltb_spec i (Z.of_nat (length classes_))); [reflexivity |].
  symmetry. apply lookup_ge_None. lia.
Qed.

(* ===================================================================== *)
(** ** Label resolution *)
(* ===================================================================== *)

Example make_LABEL_MAP_example :
  make_LABEL_MAP ["BENIGN"; "Bot"] = <[0%Z := "BENIGN"]> (<[1%Z := "Bot"]> ∅).
Proof.
  apply map_eq. intros i. rewrite make_LABEL_MAP_lookup.
  destruct (decide (i = 0%Z)) as [->|H0]; [reflexivity |].
  destruct (decide (i = 1%Z)) as [->|H1]; [reflexivity |].
  rewrite !lookup_insert_ne, lookup_empty by congruence.
  destruct (Z.leb_spec 0 i); [| reflexivity].
  apply lookup_ge_None. simpl. lia.
Qed.

Section LabelResolution.
Variable parse_int : string -> option Z.

Lemma label_of_Row_int (row : dict py_value) (cid : Z) (w : world) :
  dict_get "classification" row = Some (PyInt cid) ->
  label_of_Row parse_int row w
  = (Ok (label_map_get (LABEL_MAP w) cid "Unknown"), w).
Proof.
  intros Hc. unfold label_of_Row, bind, lift, row_getitem, LABEL_MAP_get.
  rewrite Hc. reflexivity.
Qed.

(** C1.  Resolving a classification ID that is a key of the label map
    yields the label bound to it; resolving an ID that is not a key yields
    "Unknown"; for every integer ID the resolution returns a label (it does
    not raise) and leaves the process state as it was. *)
Theorem label_resolution (w : world) (row : dict py_value) (cid : Z) :
  dict_get "classification" row = Some (PyInt cid) ->
  (forall label, LABEL_MAP w !! cid = Some label ->
     label_of_Row parse_int row w = (Ok label, w))
  /\ (LABEL_MAP w !! cid = None ->
      label_of_Row parse_int row w = (Ok "Unknown", w))
  /\ (exists label, label_of_Row parse_int row w = (Ok label, w)).
Proof.
  intros Hc. rewrite (label_of_Row_int row cid w Hc). unfold label_map_get.
  repeat split.
  - intros label ->. reflexivity.
  - intros ->. reflexivity.
  - eexists. reflexivity.
Qed.

Lemma with_label_run (r : row) (w : world) :
  with_label parse_int (detection_Row r) w = (Ok (labelled (LABEL_MAP w) r), w).
Proof.
  unfold with_label, bind.
  rewrite (label_of_Row_int _ (classification r)) by reflexivity.
  reflexivity.
Qed.

Lemma list_comprehension_with_label (rs : list row) (w : world) :
  list_comprehension (with_label parse_int) (map detection_Row rs) w
  = (Ok (map (labelled (LABEL_MAP w)) rs), w).
Proof.
  induction rs as [|r rs IH]; simpl.
  - reflexivity.
  - unfold bind at 1. rewrite with_label_run.
    unfold bind at 1. rewrite IH. reflexivity.
Qed.

Lemma stats_by_label_acc (gs : list (Z * Z)) (acc : dict py_value) (w : world) :
  dict_comprehension (label_of_Row parse_int)
    (fun row => lift (row_getitem row "count")) (map count_Row gs) acc w
  = (Ok (label_buckets (LABEL_MAP w) gs acc), w).
Proof.
  revert acc. induction gs as [|g gs IH]; intros acc; simpl.
  - reflexivity.
  - unfold bind at 1.
    rewrite (label_of_Row_int _ (fst g)) by reflexivity.
    unfold bind at 1. unfold lift at 1. simpl. rewrite IH. reflexivity.
Qed.

Lemma stats_by_label_run (gs : list (Z * Z)) (w : world) :
  stats_by_label parse_int (map count_Row gs) w
  = (Ok (label_buckets (LABEL_MAP w) gs []), w).
Proof. apply stats_by_label_acc. Qed.
End LabelResolution.

Lemma label_resolution_witness :
  label_of_Row (fun _ => None) (detection_Row (example_row 1 1700000000 1))
    (World example_labels Unopenable 0 [])
  = (Ok "Bot", World example_labels Unopenable 0 [])
  /\ label_of_Row (fun _ => None) (detection_Row (example_row 2 1700000001 99))
       (World example_labels Unopenable 0 [])
     = (Ok "Unknown", World example_labels Unopenable 0 []).
Proof.
  split.
  - apply (proj1 (label_resolution (fun _ => None)
             (World example_labels Unopenable 0 [])
             (detection_Row (example_row 1 1700000000 1)) 1 eq_refl)).
    vm_compute. reflexivity.
  - apply (proj1 (proj2 (label_resolution (fun _ => None)
             (World example_labels Unopenable 0 [])
             (detection_Row (example_row 2 1700000001 99)) 99 eq_refl))).
    vm_compute. reflexivity.
Defined.

(* ===================================================================== *)
(** ** The ordering of stored timestamps and the recent-rows query *)
(* ===================================================================== *)

Lemma real_compare_antisym (a b : float) :
  real_compare b a = CompOpp (real_compare a b).
Proof.
  destruct a as [sa|sa| |sa ma ea], b as [sb|sb| |sb mb eb];
    try destruct sa; try destruct sb; try reflexivity;
    unfold real_compare; simpl;
    rewrite (Z.compare_antisym ea eb); destruct (ea ?= eb)%Z; simpl;
    try reflexivity;
    change (Pos.compare_cont Eq mb ma) with (Pos.compare mb ma);
    change (Pos.compare_cont Eq ma mb) with (Pos.compare ma mb);
    rewrite (Pos.compare_antisym ma mb); destruct (Pos.compare ma mb);
    reflexivity.
Qed.

Lemma real_leb_total (a b : float) : real_leb a b = false -> real_leb b a = true.
Proof.
  unfold real_leb. rewrite (real_compare_antisym a b).
  destruct (real_compare a b); simpl; congruence.
Qed.

Ltac split_compares :=
  repeat match goal with
  | H : context [(?x ?= ?y)%Z] |- _ => destruct (Z.compare_spec x y)
  | |- context [(?x ?= ?y)%Z] => destruct (Z.compare_spec x y)
  | H : context [Pos.compare ?x ?y] |- _ => destruct (Pos.compare_spec x y)
  | |- context [Pos.compare ?x ?y] => destruct (Pos.compare_spec x y)
  end.

Lemma real_leb_trans (a b c : float) :
  real_leb a b = true -> real_leb b c = true -> real_leb a c = true.
Proof.
  unfold real_leb, real_compare.
  destruct a as [sa|sa| |sa ma ea], b as [sb|sb| |sb mb eb],
    c as [sc|sc| |sc mc ec];
    try destruct sa; try destruct sb; try destruct sc; simpl;
    try reflexivity; try discriminate;
    repeat match goal with
    | |- context [Pos.compare_cont Eq ?x ?y] =>
        change (Pos.compare_cont Eq x y) with (Pos.compare x y)
    end;
    intros H1 H2; split_compares; simpl in *;
    try reflexivity; try discriminate; try lia.
Qed.

Lemma not_older_trans (a b c : row) : not_older a b -> not_older b c -> not_older a c.
Proof. unfold not_older. intros Hab Hbc. exact (real_leb_trans _ _ _ Hbc Hab). Qed.

Lemma insert_desc_HdRel (x r : row) (l : list row) :
  HdRel not_older x l -> not_older x r -> HdRel not_older x (insert_desc r l).
Proof.
  intros Hl Hr. destruct l as [|y l]; simpl.
  - constructor. exact Hr.
  - destruct (real_leb (timestamp y) (timestamp r)); constructor.
    + exact Hr.
    + inversion Hl; assumption.
Qed.

Lemma insert_desc_Sorted (r : row) (l : list row) :
  Sorted not_older l -> Sorted not_older (insert_desc r l).
Proof.
  induction l as [|x l IH]; intros Hs; simpl.
  - repeat constructor.
  - destruct (real_leb (timestamp x) (timestamp r)) eqn:Hx.
    + constructor; [exact Hs | constructor; exact Hx].
    + inversion Hs as [|? ? Hl Hhd]; subst. constructor.
      * apply IH, Hl.
      * apply insert_desc_HdRel; [exact Hhd |].
        apply real_leb_total, Hx.
Qed.

Lemma order_by_timestamp_desc_Sorted (rows : list row) :
  Sorted not_older (order_by_timestamp_desc rows).
Proof.
  induction rows as [|r rows IH]; simpl.
  - constructor.
  - apply insert_desc_Sorted, IH.
Qed.

Lemma insert_desc_Permutation (r : row) (l : list row) :
  Permutation (insert_desc r l) (r :: l).
Proof.
  induction l as [|x l IH]; simpl.
  - reflexivity.
  - destruct (real_leb (timestamp x) (timestamp r)).
    + reflexivity.
    + rewrite IH. apply perm_swap.
Qed.

(** Ordering loses and invents no row. *)
Lemma order_by_timestamp_desc_Permutation (rows : list row) :
  Permutation (order_by_timestamp_desc rows) rows.
Proof.
  induction rows as [|r rows IH]; simpl.
  - reflexivity.
  - rewrite insert_desc_Permutation. now rewrite IH.
Qed.

Lemma StronglySorted_firstn {A : Type} (R : A -> A -> Prop) (n : nat) (l : list A) :
  StronglySorted R l -> StronglySorted R (firstn n l).
Proof.
  intros Hs. revert n. induction Hs as [|x l Hs IH Hx]; intros [|n]; simpl;
    try constructor.
  - apply IH.
  - apply Forall_take, Hx.
Qed.

Lemma select_recent_sorted (limit : nat) (rows : list row) :
  StronglySorted not_older (select_recent limit rows).
Proof.
  apply StronglySorted_firstn, Sorted_StronglySorted.
  - intros a b c. apply not_older_trans.
  - apply order_by_timestamp_desc_Sorted.
Qed.

Lemma select_recent_length (limit : nat) (rows : list row) :
  length (select_recent limit rows) = Nat.min limit (length rows).
Proof.
  unfold select_recent. rewrite length_take.
  now rewrite (Permutation_length (order_by_timestamp_desc_Permutation rows)).
Qed.

(** The rows returned are rows of the table. *)
Lemma select_recent_incl (limit : nat) (rows : list row) (r : row) :
  In r (select_recent limit rows) -> In r rows.
Proof.
  intros Hin. apply (Permutation_in _ (order_by_timestamp_desc_Permutation rows)).
  apply list_elem_of_In. apply list_elem_of_In in Hin.
  exact (subseteq_take limit _ r Hin).
Qed.

Example select_recent_example :
  map id (select_recent 100 example_store_rows) = [4; 6; 2; 5; 1; 3; 7]%Z
  /\ map id (select_recent 3 example_store_rows) = [4; 6; 2]%Z.
Proof. split; vm_compute; reflexivity. Qed.

(* ===================================================================== *)
(** ** What the handlers return *)
(* ===================================================================== *)

Ltac run_handler :=
  unfold with_connection, get_db_connection, try_finally, try_except, bind,
    sqlite3_connect, execute_select_counts, execute_select_recent,
    read_detections, conn_close, ret, lift, print, any_Exception; simpl.

Section HandlerRuns.
Variable parse_int : string -> option Z.
Variable render_template : string -> dict py_value -> result string.

Lemma api_stats_run (labels : gmap Z string) (rows : list row) (n : nat) (out : list string) :
  api_stats parse_int (World labels (detections_store rows) n out)
  = (Ok (Jsonify (PyDict (label_buckets labels (select_counts rows) [])), 200%Z),
     World labels (detections_store rows) n out).
Proof.
  unfold api_stats. run_handler.
  rewrite stats_by_label_run. reflexivity.
Qed.

Lemma api_detections_run (labels : gmap Z string) (rows : list row) (n : nat) (out : list string) :
  api_detections parse_int (World labels (detections_store rows) n out)
  = (Ok (Jsonify (PyList (map PyDict (map (labelled labels) (select_recent RECENT_LIMIT rows)))),
         200%Z),
     World labels (detections_store rows) n out).
Proof.
  unfold api_detections. run_handler.
  rewrite list_comprehension_with_label. reflexivity.
Qed.

Lemma dashboard_run (labels : gmap Z string) (rows : list row) (n : nat) (out : list string) :
  dashboard parse_int render_template (World labels (detections_store rows) n out)
  = match render_template "dashboard.html" (dashboard_context labels rows) with
    | Ok page => (Ok (Text page, 200%Z), World labels (detections_store rows) n out)
    | Raise e =>
        (Ok (Text ("An error occurred: " ++ str_of_exn e), 500%Z),
         World labels (detections_store rows) n
           (out ++ [("Dashboard error: " ++ str_of_exn e)%string]))
    end.
Proof.
  unfold dashboard. run_handler.
  rewrite list_comprehension_with_label. simpl.
  rewrite stats_by_label_run. simpl. unfold dashboard_context.
  destruct (render_template _ _); reflexivity.
Qed.
End HandlerRuns.

(* ===================================================================== *)
(** ** The grouping query *)
(* ===================================================================== *)

Lemma select_counts_fold (rows : list row) (acc : list (Z * Z)) :
  fold_left (fun groups r => count_into (classification r) groups) rows acc
  = fold_left (fun groups c => count_into c groups) (map classification rows) acc.
Proof.
  revert acc. induction rows as [|r rows IH]; intros acc; simpl.
  - reflexivity.
  - apply IH.
Qed.

(** The grouping query reads nothing of a row but its classification. *)
Lemma select_counts_classifications (rows : list row) :
  select_counts rows
  = fold_left (fun groups c => count_into c groups) (map classification rows) [].
Proof. apply select_counts_fold. Qed.

Lemma count_into_sum (c : Z) (groups : list (Z * Z)) :
  sum_of (map snd (count_into c groups)) = (sum_of (map snd groups) + 1)%Z.
Proof.
  induction groups as [|[k n] groups IH]; simpl.
  - reflexivity.
  - destruct (c =? k)%Z; simpl; [lia |].
    destruct (c <? k)%Z; simpl; [lia |].
    rewrite IH. lia.
Qed.

Lemma count_fold_sum (cs : list Z) (acc : list (Z * Z)) :
  sum_of (map snd (fold_left (fun groups c => count_into c groups) cs acc))
  = (sum_of (map snd acc) + Z.of_nat (length cs))%Z.
Proof.
  revert acc. induction cs as [|c cs IH]; intros acc; simpl fold_left.
  - simpl. lia.
  - rewrite IH, count_into_sum. simpl length. lia.
Qed.

(** The counts of the groups add up to the number of rows. *)
Lemma select_counts_sum (rows : list row) :
  sum_of (map snd (select_counts rows)) = Z.of_nat (length rows).
Proof.
  rewrite select_counts_classifications, count_fold_sum, length_map.
  reflexivity.
Qed.

Lemma count_into_keys_HdRel (c k : Z) (groups : list (Z * Z)) :
  (k < c)%Z -> HdRel Z.lt k (map fst groups) ->
  HdRel Z.lt k (map fst (count_into c groups)).
Proof.
  intros Hk Hhd. destruct groups as [|[k' n'] groups]; simpl.
  - constructor. exact Hk.
  - inversion Hhd; subst.
    destruct (c =? k')%Z; [| destruct (c <? k')%Z]; simpl; constructor;
      assumption.
Qed.

(** One group per key, keys ascending. *)
Lemma count_into_keys_Sorted (c : Z) (groups : list (Z * Z)) :
  Sorted Z.lt (map fst groups) -> Sorted Z.lt (map fst (count_into c groups)).
Proof.
  induction groups as [|[k n] groups IH]; intros Hs; simpl.
  - repeat constructor.
  - destruct (Z.eqb_spec c k) as [->|Hne]; simpl; [exact Hs |].
    destruct (Z.ltb_spec c k) as [Hlt|Hge]; simpl.
    + constructor; [exact Hs | constructor; exact Hlt].
    + inversion Hs as [|? ? Hs' Hhd]; subst. constructor.
      * apply IH, Hs'.
      * apply count_into_keys_HdRel; [lia | exact Hhd].
Qed.

Lemma count_into_keys_incl (c x : Z) (groups : list (Z * Z)) :
  In x (map fst (count_into c groups)) -> x = c \/ In x (map fst groups).
Proof.
  induction groups as [|[k n] groups IH]; simpl.
  - intros [<-|[]]. now left.
  - destruct (Z.eqb_spec c k) as [->|Hne]; simpl; [tauto |].
    destruct (c <? k)%Z; simpl.
    + intros [<-|H]; [now left | now right].
    + intros [<-|H]; [right; now left |].
      destruct (IH H) as [->|H']; [now left | right; now right].
Qed.

Lemma count_fold_keys (cs : list Z) (acc : list (Z * Z)) :
  Sorted Z.lt (map fst acc) ->
  let groups := fold_left (fun groups c => count_into c groups) cs acc in
  Sorted Z.lt (map fst groups)
  /\ forall x, In x (map fst groups) -> In x cs \/ In x (map fst acc).
Proof.
  revert acc. induction cs as [|c cs IH]; intros acc Hacc; simpl.
  - split; [exact Hacc | intros x Hx; now right].
  - destruct (IH (count_into c acc) (count_into_keys_Sorted c acc Hacc))
      as [Hs Hin].
    split; [exact Hs |].
    intros x Hx. destruct (Hin x Hx) as [H|H]; [left; now right |].
    destruct (count_into_keys_incl c x acc H) as [->|H']; [left; now left | now right].
Qed.

Lemma Sorted_lt_NoDup (l : list Z) : Sorted Z.lt l -> NoDup l.
Proof.
  intros Hs. apply Sorted_StronglySorted in Hs; [| intros a b c; apply Z.lt_trans].
  induction Hs as [|x l Hs IH Hx]; constructor.
  - intros Hin. rewrite Forall_forall in Hx.
    specialize (Hx x Hin). lia.
  - exact IH.
Qed.

Example select_counts_example :
  select_counts example_store_rows = [(0, 3); (1, 1); (98, 1); (99, 2)]%Z.
Proof. reflexivity. Qed.

(** The keys of the grouping query are distinct classifications of rows. *)
Lemma select_counts_keys (rows : list row) :
  NoDup (map fst (select_counts rows))
  /\ forall k, In k (map fst (select_counts rows)) -> In k (map classification rows).
Proof.
  rewrite select_counts_classifications.
  destruct (count_fold_keys (map classification rows) []) as [Hs Hin].
  - constructor.
  - split; [apply Sorted_lt_NoDup, Hs |].
    intros k Hk. destruct (Hin k Hk) as [H|[]]. exact H.
Qed.

(* ===================================================================== *)
(** ** Counts by label *)
(* ===================================================================== *)

Lemma label_buckets_app (labels : gmap Z string) (g1 g2 : list (Z * Z)) (acc : dict py_value) :
  label_buckets labels (g1 ++ g2) acc
  = label_buckets labels g2 (label_buckets labels g1 acc).
Proof. unfold label_buckets. apply fold_left_app. Qed.

Lemma label_buckets_keys_NoDup (labels : gmap Z string) (gs : list (Z * Z))
    (acc : dict py_value) :
  NoDup (dict_keys acc) -> NoDup (dict_keys (label_buckets labels gs acc)).
Proof.
  revert acc. induction gs as [|g gs IH]; intros acc Hacc; simpl.
  - exact Hacc.
  - apply IH, dict_keys_set_NoDup, Hacc.
Qed.

(** Groups that resolve to other labels leave a bucket as it is. *)
Lemma label_buckets_get_other (labels : gmap Z string) (gs : list (Z * Z))
    (acc : dict py_value) (l : string) :
  Forall (fun g => label_map_get labels (fst g) "Unknown" <> l) gs ->
  dict_get l (label_buckets labels gs acc) = dict_get l acc.
Proof.
  revert acc. induction gs as [|g gs IH]; intros acc Hgs; simpl.
  - reflexivity.
  - inversion Hgs as [|? ? Hg Hgs']; subst.
    rewrite (IH _ Hgs'). apply dict_get_set_other. congruence.
Qed.

(** When every group brings a label of its own, each gets its own bucket. *)
Lemma label_buckets_fresh (labels : gmap Z string) (gs : list (Z * Z))
    (acc : dict py_value) :
  NoDup (dict_keys acc ++ map (fun g => label_map_get labels (fst g) "Unknown") gs) ->
  label_buckets labels gs acc
  = acc ++ map (fun g => (label_map_get labels (fst g) "Unknown", PyInt (snd g))) gs.
Proof.
  revert acc. induction gs as [|g gs IH]; intros acc Hnd; simpl.
  - now rewrite app_nil_r.
  - assert (Hfresh : dict_get (label_map_get labels (fst g) "Unknown") acc = None).
    { apply dict_get_None_keys. apply NoDup_app in Hnd as (_ & Hdisj & _).
      intros Hin. apply (Hdisj _ Hin). simpl. apply list_elem_of_here. }
    rewrite (dict_set_fresh _ _ _ Hfresh). rewrite IH.
    + now rewrite <- app_assoc.
    + unfold dict_keys in *. rewrite map_app. simpl.
      rewrite <- app_assoc. exact Hnd.
Qed.

Lemma sum_counts_app (d1 d2 : dict py_value) :
  sum_counts (d1 ++ d2) = (sum_counts d1 + sum_counts d2)%Z.
Proof.
  induction d1 as [|[k v] d1 IH]; simpl.
  - reflexivity.
  - unfold sum_counts in *. simpl. rewrite IH. destruct v; lia.
Qed.

Lemma sum_counts_labelled (labels : gmap Z string) (gs : list (Z * Z)) :
  sum_counts (map (fun g => (label_map_get labels (fst g) "Unknown", PyInt (snd g))) gs)
  = sum_of (map snd gs).
Proof.
  induction gs as [|g gs IH]; simpl.
  - reflexivity.
  - unfold sum_counts in *. simpl. now rewrite IH.
Qed.

Section StatsClaims.
Variable parse_int : string -> option Z.

(** C4.  The stats handler groups the rows by raw classification ID and
    resolves each group key to its label afterwards.  The object it returns
    holds each label once, and a label that several groups resolve to
    carries the count of the last of them: after a group [g], when no later
    group resolves to the label of [g], the bucket of that label holds the
    count of [g] alone. *)
Theorem stats_collisions_last_write_wins (labels : gmap Z string) (rows : list row)
    (n : nat) (out : list string) (before after : list (Z * Z)) (g : Z * Z) :
  select_counts rows = before ++ g :: after ->
  Forall (fun g' => label_map_get labels (fst g') "Unknown"
                    <> label_map_get labels (fst g) "Unknown") after ->
  let buckets := label_buckets labels (select_counts rows) [] in
  api_stats parse_int (World labels (detections_store rows) n out)
  = (Ok (Jsonify (PyDict buckets), 200%Z), World labels (detections_store rows) n out)
  /\ NoDup (dict_keys buckets)
  /\ dict_get (label_map_get labels (fst g) "Unknown") buckets = Some (PyInt (snd g)).
Proof.
  intros Hsplit Hafter buckets. split; [apply api_stats_run | split].
  - apply label_buckets_keys_NoDup. constructor.
  - subst buckets. rewrite Hsplit, label_buckets_app. simpl.
    rewrite (label_buckets_get_other _ _ _ _ Hafter).
    apply dict_get_set_same.
Qed.

(** C2, amended.  The counts of the grouping query, one per raw
    classification ID, add up to the number of rows in the store; and when
    no two different classification IDs found in the store resolve to the
    same label, the counts in the object that the stats handler returns add
    up to the number of rows as well. *)
Theorem stats_counts_sum_when_labels_distinct (labels : gmap Z string)
    (rows : list row) (n : nat) (out : list string) :
  (forall r1 r2, In r1 rows -> In r2 rows ->
     label_map_get labels (classification r1) "Unknown"
     = label_map_get labels (classification r2) "Unknown" ->
     classification r1 = classification r2) ->
  sum_of (map snd (select_counts rows)) = Z.of_nat (length rows)
  /\ exists counts,
       api_stats parse_int (World labels (detections_store rows) n out)
       = (Ok (Jsonify (PyDict counts), 200%Z), World labels (detections_store rows) n out)
       /\ sum_counts counts = Z.of_nat (length rows).
Proof.
  intros Hinj. split; [apply select_counts_sum |].
  eexists. split; [apply api_stats_run |].
  destruct (select_counts_keys rows) as [Hnd Hin].
  rewrite label_buckets_fresh.
  - simpl. rewrite sum_counts_labelled. apply select_counts_sum.
  - simpl. rewrite <- (map_map fst (fun k => label_map_get labels k "Unknown")).
    apply NoDup_fmap_2_strong; [| exact Hnd].
    intros k1 k2 Hk1 Hk2 Heq.
    apply list_elem_of_In, Hin, in_map_iff in Hk1 as (r1 & <- & Hr1).
    apply list_elem_of_In, Hin, in_map_iff in Hk2 as (r2 & <- & Hr2).
    now apply Hinj.
Qed.

(** C5.  With the label map {0: "BENIGN", 1: "Bot"} and a store whose rows
    carry the classification IDs 0, 1, 0, 99, the stats handler answers 200
    with the object {"BENIGN": 2, "Bot": 1, "Unknown": 1} and leaves the
    process state as it was. *)
Theorem api_stats_example (rows : list row) (n : nat) (out : list string) :
  map classification rows = [0; 1; 0; 99]%Z ->
  api_stats parse_int
    (World (<[0%Z := "BENIGN"]> (<[1%Z := "Bot"]> ∅)) (detections_store rows) n out)
  = (Ok (Jsonify (PyDict [("BENIGN", PyInt 2); ("Bot", PyInt 1); ("Unknown", PyInt 1)]),
         200%Z),
     World (<[0%Z := "BENIGN"]> (<[1%Z := "Bot"]> ∅)) (detections_store rows) n out).
Proof.
  intros Hids. rewrite api_stats_run, select_counts_classifications, Hids.
  reflexivity.
Qed.
End StatsClaims.

Lemma stats_collisions_last_write_wins_witness :
  api_stats (fun _ => None) (World example_labels (detections_store example_unmapped_rows) 0 [])
  = (Ok (Jsonify (PyDict (label_buckets example_labels (select_counts example_unmapped_rows) [])),
         200%Z),
     World example_labels (detections_store example_unmapped_rows) 0 [])
  /\ NoDup (dict_keys (label_buckets example_labels (select_counts example_unmapped_rows) []))
  /\ dict_get "Unknown" (label_buckets example_labels (select_counts example_unmapped_rows) [])
     = Some (PyInt 2).
Proof.
  apply (stats_collisions_last_write_wins (fun _ => None) example_labels
           example_unmapped_rows 0 [] [(98, 1)%Z] [] (99, 2)%Z).
  - vm_compute. reflexivity.
  - constructor.
Defined.

(** C2, as stated, fails: with two unmapped classification IDs in the
    store the stats handler returns the single bucket {"Unknown": 2} for
    three rows. *)
Lemma stats_counts_sum_counterexample :
  exists counts,
    fst (api_stats (fun _ => None)
           (World example_labels (detections_store example_unmapped_rows) 0 []))
    = Ok (Jsonify (PyDict counts), 200%Z)
    /\ sum_counts counts = 2%Z
    /\ Z.of_nat (length example_unmapped_rows) = 3%Z
    /\ sum_counts counts <> Z.of_nat (length example_unmapped_rows).
Proof.
  exists [("Unknown", PyInt 2)]. repeat split. discriminate.
Qed.

Lemma stats_counts_sum_when_labels_distinct_witness :
  sum_of (map snd (select_counts example_mixed_rows)) = 4%Z
  /\ exists counts,
       api_stats (fun _ => None)
         (World example_labels (detections_store example_mixed_rows) 0 [])
       = (Ok (Jsonify (PyDict counts), 200%Z),
          World example_labels (detections_store example_mixed_rows) 0 [])
       /\ sum_counts counts = 4%Z.
Proof.
  apply (stats_counts_sum_when_labels_distinct (fun _ => None) example_labels
           example_mixed_rows 0 []).
  intros r1 r2 H1 H2. simpl in H1, H2.
  destruct H1 as [<-|[<-|[<-|[<-|[]]]]], H2 as [<-|[<-|[<-|[<-|[]]]]];
    vm_compute; intros Heq; first [reflexivity | discriminate Heq].
Defined.

Lemma api_stats_example_witness :
  api_stats (fun _ => None)
    (World (<[0%Z := "BENIGN"]> (<[1%Z := "Bot"]> ∅)) (detections_store example_mixed_rows) 0 [])
  = (Ok (Jsonify (PyDict [("BENIGN", PyInt 2); ("Bot", PyInt 1); ("Unknown", PyInt 1)]),
         200%Z),
     World (<[0%Z := "BENIGN"]> (<[1%Z := "Bot"]> ∅)) (detections_store example_mixed_rows) 0 []).
Proof.
  apply (api_stats_example (fun _ => None) example_mixed_rows 0 []).
  reflexivity.
Defined.

(* ===================================================================== *)
(** ** Recent detections: the list endpoint and the dashboard *)
(* ===================================================================== *)

(** The object built from a row: the row's columns in their order, with
    the label in the place of the classification ID. *)
Lemma labelled_unfold (labels : gmap Z string) (r : row) :
  labelled labels r
  = [ ("id", PyInt (id r));
      ("timestamp", PyFloat (timestamp r));
      ("source_ip", PyStr (source_ip r));
      ("destination_ip", PyStr (destination_ip r));
      ("classification", PyStr (label_map_get labels (classification r) "Unknown")) ].
Proof. reflexivity. Qed.

Lemma labelled_only_classification_replaced (labels : gmap Z string) (r : row) :
  only_classification_replaced labels r (labelled labels r).
Proof.
  unfold only_classification_replaced.
  repeat split; try discriminate.
  intros key Hkey. unfold labelled. now apply dict_get_set_other.
Qed.

Section RecentClaims.
Variable parse_int : string -> option Z.
Variable render_template : string -> dict py_value -> result string.

(** C3.  For every store and every limit the recent-rows query returns at
    most [limit] rows, and every returned row is not older than any row
    after it (timestamps do not increase from first to last).  The list
    endpoint and the dashboard run the query with the limit 100: the
    endpoint returns, and the dashboard hands to its template, one object
    per row of [select_recent 100 rows], in that order. *)
Theorem recent_at_most_limit_newest_first (limit : nat) (rows : list row)
    (labels : gmap Z string) (n : nat) (out : list string) :
  length (select_recent limit rows) <= limit
  /\ StronglySorted not_older (select_recent limit rows)
  /\ api_detections parse_int (World labels (detections_store rows) n out)
     = (Ok (Jsonify (PyList (map PyDict
              (map (labelled labels) (select_recent 100 rows)))), 200%Z),
        World labels (detections_store rows) n out)
  /\ dict_get "detections" (dashboard_context labels rows)
     = Some (PyList (map PyDict (map (labelled labels) (select_recent 100 rows))))
  /\ dashboard parse_int render_template (World labels (detections_store rows) n out)
     = match render_template "dashboard.html" (dashboard_context labels rows) with
       | Ok page => (Ok (Text page, 200%Z), World labels (detections_store rows) n out)
       | Raise e =>
           (Ok (Text ("An error occurred: " ++ str_of_exn e), 500%Z),
            World labels (detections_store rows) n
              (out ++ [("Dashboard error: " ++ str_of_exn e)%string]))
       end.
Proof.
  split; [| split; [| split; [| split]]].
  - rewrite select_recent_length. lia.
  - apply select_recent_sorted.
  - apply api_detections_run.
  - reflexivity.
  - apply dashboard_run.
Qed.

(** C9.  Every object that the list endpoint returns carries the columns
    of its stored row in their order; the entry [classification] holds the
    resolved label, a string, where the row holds the integer ID, and every
    other entry ([id], [timestamp], [source_ip], [destination_ip]) holds
    the stored value unchanged. *)
Theorem api_detections_replaces_classification_only (labels : gmap Z string)
    (rows : list row) (n : nat) (out : list string) :
  exists items,
    api_detections parse_int (World labels (detections_store rows) n out)
    = (Ok (Jsonify (PyList (map PyDict items)), 200%Z),
       World labels (detections_store rows) n out)
    /\ Forall2 (only_classification_replaced labels)
         (select_recent RECENT_LIMIT rows) items.
Proof.
  exists (map (labelled labels) (select_recent RECENT_LIMIT rows)).
  split; [apply api_detections_run |].
  induction (select_recent RECENT_LIMIT rows) as [|r rs IH]; cbn [map];
    constructor; [apply labelled_only_classification_replaced | exact IH].
Qed.

(** C8.  On a store whose detections table is empty the dashboard answers
    200 with the page that the template renders from an empty detection
    list and empty stats. *)
Theorem dashboard_empty_store (labels : gmap Z string) (n : nat) (out : list string)
    (page : string) :
  render_template "dashboard.html" [("detections", PyList []); ("stats", PyDict [])]
  = Ok page ->
  dashboard parse_int render_template (World labels (detections_store []) n out)
  = (Ok (Text page, 200%Z), World labels (detections_store []) n out).
Proof.
  intros Hpage. rewrite dashboard_run.
  change (dashboard_context labels [])
    with [("detections", PyList []); ("stats", PyDict [])].
  now rewrite Hpage.
Qed.
End RecentClaims.

Lemma dashboard_empty_store_witness :
  dashboard (fun _ => None) example_render
    (World example_labels (detections_store []) 0 [])
  = (Ok (Text "<h1>Detections</h1>", 200%Z),
     World example_labels (detections_store []) 0 []).
Proof.
  apply (dashboard_empty_store (fun _ => None) example_render example_labels 0 []
           "<h1>Detections</h1>").
  reflexivity.
Defined.

(* ===================================================================== *)
(** ** Store initialisation *)
(* ===================================================================== *)

Lemma create_table_if_not_exists_idem (db : database) :
  create_table_if_not_exists (create_table_if_not_exists db)
  = create_table_if_not_exists db.
Proof. destruct db as [[t|]]; reflexivity. Qed.

Lemma init_db_run (labels : gmap Z string) (db : database) (n : nat) (out : list string) :
  init_db (World labels (Database db) n out)
  = (Ok tt, World labels (Database (create_table_if_not_exists db)) n out).
Proof. reflexivity. Qed.

(** C7.  On a database file that opens, [init_db] returns normally and
    leaves the file with the detections table; a second call returns
    normally too and leaves the file exactly as the first call left it.
    Where the table exists already, whatever its columns and rows, a call
    changes nothing. *)
Theorem init_db_idempotent (labels : gmap Z string) (db : database) (n : nat)
    (out : list string) :
  let once := World labels (Database (create_table_if_not_exists db)) n out in
  init_db (World labels (Database db) n out) = (Ok tt, once)
  /\ init_db once = (Ok tt, once)
  /\ (exists t, detections (create_table_if_not_exists db) = Some t
                /\ (detections db = None -> t = Table DETECTIONS_COLUMNS []))
  /\ (forall t, init_db (World labels (Database (Db (Some t))) n out)
                = (Ok tt, World labels (Database (Db (Some t))) n out)).
Proof.
  intros once. subst once. split; [apply init_db_run |].
  split; [rewrite init_db_run, create_table_if_not_exists_idem; reflexivity |].
  split; [| intros t; reflexivity].
  destruct db as [[t|]]; unfold create_table_if_not_exists; simpl.
  - exists t. split; [reflexivity | discriminate].
  - eexists. split; reflexivity.
Qed.

(** A file that is not a database: the error is printed and swallowed. *)
Lemma init_db_corrupt (labels : gmap Z string) (n : nat) (out : list string) :
  init_db (World labels Corrupt n out)
  = (Ok tt, World labels Corrupt n
              (out ++ ["Database initialization error: file is not a database"])).
Proof. reflexivity. Qed.

(** A file that cannot be opened: [sqlite3.connect] stands outside the
    [try], its error leaves [init_db]. *)
Lemma init_db_unopenable (labels : gmap Z string) (n : nat) (out : list string) :
  init_db (World labels Unopenable n out)
  = (Raise (Exn OperationalError "unable to open database file"),
     World labels Unopenable n out).
Proof. reflexivity. Qed.

(** Importing the module against a database file without tables. *)
Lemma import_app_fresh (classes_ : list string) :
  import_app classes_ (Database (Db None))
  = (Ok tt, World (make_LABEL_MAP classes_) (detections_store []) 0 []).
Proof. reflexivity. Qed.

(* ===================================================================== *)
(** ** Every endpoint, every state of the file *)
(* ===================================================================== *)

Ltac quiet_answer :=
  eexists; exists []; intros n out; rewrite app_nil_r.

Ltac run_on_table :=
  unfold with_connection, get_db_connection, execute_select_counts,
    execute_select_recent, try_finally, try_except, bind, sqlite3_connect,
    read_detections, conn_close, ret, lift, print, any_Exception;
  cbn -[has_column].

Ltac logged_answer :=
  eexists; eexists; intros n out.

Section Outcomes.
Variable parse_int : string -> option Z.
Variable render_template : string -> dict py_value -> result string.

Lemma api_stats_answers (labels : gmap Z string) (file : file_state) :
  exists resp log, answers (api_stats parse_int) labels file resp log.
Proof.
  unfold answers, api_stats.
  destruct file as [| |[[t|]]].
  - logged_answer. run_handler. reflexivity.
  - quiet_answer. run_handler. reflexivity.
  - destruct (has_column t "classification") eqn:Hc.
    + quiet_answer. run_on_table. rewrite Hc. simpl.
      rewrite stats_by_label_run. simpl. reflexivity.
    + quiet_answer. run_on_table. rewrite Hc. reflexivity.
  - quiet_answer. run_handler. reflexivity.
Qed.

Lemma api_detections_answers (labels : gmap Z string) (file : file_state) :
  exists resp log, answers (api_detections parse_int) labels file resp log.
Proof.
  unfold answers, api_detections.
  destruct file as [| |[[t|]]].
  - logged_answer. run_handler. reflexivity.
  - quiet_answer. run_handler. reflexivity.
  - destruct (has_column t "timestamp") eqn:Hc.
    + quiet_answer. run_on_table. rewrite Hc. simpl.
      rewrite list_comprehension_with_label. simpl. reflexivity.
    + quiet_answer. run_on_table. rewrite Hc. reflexivity.
  - quiet_answer. run_handler. reflexivity.
Qed.

Lemma dashboard_answers (labels : gmap Z string) (file : file_state) :
  exists resp log, answers (dashboard parse_int render_template) labels file resp log.
Proof.
  unfold answers, dashboard.
  destruct file as [| |[[t|]]].
  - logged_answer. run_handler. reflexivity.
  - logged_answer. run_handler. reflexivity.
  - destruct (has_column t "timestamp") eqn:Ht.
    + destruct (has_column t "classification") eqn:Hc.
      * destruct (render_template "dashboard.html"
          [ ("detections", PyList (map PyDict
               (map (labelled labels) (select_recent RECENT_LIMIT (tbl_rows t)))));
            ("stats", PyDict (label_buckets labels (select_counts (tbl_rows t)) [])) ])
          as [page|e] eqn:Hr.
        -- quiet_answer. run_on_table. rewrite Ht. simpl.
           rewrite list_comprehension_with_label. simpl. rewrite Hc. simpl.
           rewrite stats_by_label_run. simpl.
           unfold select_recent, RECENT_LIMIT in Hr. rewrite Hr. reflexivity.
        -- logged_answer. run_on_table. rewrite Ht. simpl.
           rewrite list_comprehension_with_label. simpl. rewrite Hc. simpl.
           rewrite stats_by_label_run. simpl.
           unfold select_recent, RECENT_LIMIT in Hr. rewrite Hr. reflexivity.
      * logged_answer. run_on_table. rewrite Ht. simpl.
        rewrite list_comprehension_with_label. simpl. rewrite Hc. reflexivity.
    + logged_answer. run_on_table. rewrite Ht. reflexivity.
  - logged_answer. run_handler. reflexivity.
Qed.

(** C10.  Each of the three endpoints answers from the label map and the
    store alone: from whatever process state it is called, it returns a
    response that the label map and the file determine, leaves the label
    map, the file and the number of open connections as they were, and a
    second call right after the first returns the same response. *)
Theorem endpoints_deterministic_and_read_only (w : world) :
  Forall
    (fun endpoint : M response =>
       (exists resp, fst (endpoint w) = Ok resp
          /\ fst (endpoint (snd (endpoint w))) = Ok resp
          /\ forall n out,
               fst (endpoint (World (LABEL_MAP w) (disk w) n out)) = Ok resp)
       /\ LABEL_MAP (snd (endpoint w)) = LABEL_MAP w
       /\ disk (snd (endpoint w)) = disk w
       /\ open_connections (snd (endpoint w)) = open_connections w)
    [ dashboard parse_int render_template;
      api_detections parse_int;
      api_stats parse_int ].
Proof.
  assert (Hall : forall endpoint : M response,
            (exists resp log, answers endpoint (LABEL_MAP w) (disk w) resp log) ->
            (exists resp, fst (endpoint w) = Ok resp
               /\ fst (endpoint (snd (endpoint w))) = Ok resp
               /\ forall n out,
                    fst (endpoint (World (LABEL_MAP w) (disk w) n out)) = Ok resp)
            /\ LABEL_MAP (snd (endpoint w)) = LABEL_MAP w
            /\ disk (snd (endpoint w)) = disk w
            /\ open_connections (snd (endpoint w)) = open_connections w).
  { intros endpoint (resp & log & Hans). unfold answers in Hans.
    destruct w as [labels file n out]; simpl in *.
    rewrite (Hans n out). simpl. split; [| repeat split].
    exists resp. split; [reflexivity |].
    split; [rewrite Hans; reflexivity |].
    intros n' out'. rewrite Hans. reflexivity. }
  constructor; [apply Hall, dashboard_answers |].
  constructor; [apply Hall, api_detections_answers |].
  constructor; [apply Hall, api_stats_answers | constructor].
Qed.
End Outcomes.

(* ===================================================================== *)
(** ** The timestamp display filter *)
(* ===================================================================== *)

Section TimestampFacts.
Variable parse_float : string -> option float.
Variable localtime : Z -> result struct_time.

Lemma datetime_filter_unparseable (s : string) :
  parse_float s = None ->
  datetime_filter parse_float localtime (PyStr s) = Ok "Invalid timestamp".
Proof. intros Hs. unfold datetime_filter, py_float. rewrite Hs. reflexivity. Qed.

Lemma datetime_filter_None :
  datetime_filter parse_float localtime PyNone = Ok "Invalid timestamp".
Proof. reflexivity. Qed.

Lemma datetime_filter_nan :
  datetime_filter parse_float localtime (PyFloat S754_nan) = Ok "Invalid timestamp".
Proof. reflexivity. Qed.

(** A timestamp whose local year lies outside 1..9999 is a [ValueError]
    in [fromtimestamp], which the filter catches. *)
Lemma datetime_filter_year_out_of_range (t : float) (sec us : Z) (tm : struct_time) :
  timestamp_to_timeval t = Ok (sec, us) ->
  localtime sec = Ok tm ->
  (tm_year tm < MINYEAR \/ MAXYEAR < tm_year tm)%Z ->
  datetime_filter parse_float localtime (PyFloat t) = Ok "Invalid timestamp".
Proof.
  intros Htv Htm Hyear. unfold datetime_filter, fromtimestamp. simpl.
  rewrite Htv. simpl. rewrite Htm. simpl.
  destruct (Z.leb_spec MINYEAR (tm_year tm)), (Z.leb_spec (tm_year tm) MAXYEAR);
    simpl; try reflexivity; lia.
Qed.

(** A timestamp that converts is shown as the local date and time. *)
Lemma datetime_filter_formats (t : float) (sec us : Z) (tm : struct_time) :
  timestamp_to_timeval t = Ok (sec, us) ->
  localtime sec = Ok tm ->
  (MINYEAR <= tm_year tm <= MAXYEAR)%Z ->
  datetime_filter parse_float localtime (PyFloat t)
  = Ok (strftime (Datetime (tm_year tm) (tm_mon tm) (tm_mday tm) (tm_hour tm)
                    (tm_min tm) (Z.min (tm_sec tm) 59) us)).
Proof.
  intros Htv Htm Hyear. unfold datetime_filter, fromtimestamp. simpl.
  rewrite Htv. simpl. rewrite Htm. simpl.
  destruct (Z.leb_spec MINYEAR (tm_year tm)), (Z.leb_spec (tm_year tm) MAXYEAR);
    simpl; try reflexivity; lia.
Qed.

(** An error of the platform's [localtime] other than [ValueError] and
    [TypeError] leaves the filter. *)
Lemma datetime_filter_localtime_error (t : float) (sec us : Z) (e : exn) :
  timestamp_to_timeval t = Ok (sec, us) ->
  localtime sec = Raise e ->
  is_ValueError_or_TypeError e = false ->
  datetime_filter parse_float localtime (PyFloat t) = Raise e.
Proof.
  intros Htv Htm He. unfold datetime_filter, fromtimestamp. simpl.
  rewrite Htv. simpl. rewrite Htm. simpl. rewrite He. reflexivity.
Qed.

Example ONE_MILLION_value :
  ONE_MILLION = binary_normalize PREC EMAX 1000000 0 false.
Proof. reflexivity. Qed.

Example datetime_filter_example :
  datetime_filter parse_float example_localtime
    (PyFloat (binary_normalize PREC EMAX 7385 (-1) false))
  = Ok "1970-01-01 01:01:32"
  /\ datetime_filter parse_float example_localtime (PyInt 86399)
     = Ok "1970-01-01 23:59:59".
Proof. split; vm_compute; reflexivity. Qed.

(** What leaves the filter is never a [ValueError] or a [TypeError]. *)
Lemma datetime_filter_raises_other (value : py_value) (e : exn) :
  datetime_filter parse_float localtime value = Raise e ->
  is_ValueError_or_TypeError e = false.
Proof.
  unfold datetime_filter.
  destruct (rbind (py_float parse_float value) _) as [s|e'].
  - discriminate.
  - destruct (is_ValueError_or_TypeError e') eqn:He'; [discriminate |].
    intros [= <-]. exact He'.
Qed.

(** C6, at the inputs where the code departs from it.  For the float
    infinity, and for the finite float 1e300, [fromtimestamp] raises
    [OverflowError]; the filter catches [ValueError] and [TypeError] only,
    so the error leaves [datetime_filter] in place of the text
    "Invalid timestamp". *)
Theorem datetime_filter_overflow_escapes :
  datetime_filter parse_float localtime (PyFloat (S754_infinity false))
  = Raise (Exn OverflowError "timestamp out of range for platform time_t")
  /\ datetime_filter parse_float localtime (PyFloat FLOAT_1E300)
     = Raise (Exn OverflowError "timestamp out of range for platform time_t").
Proof. split; vm_compute; reflexivity. Qed.
End TimestampFacts.

(* ===================================================================== *)
(** ** Further properties: the label map *)
(* ===================================================================== *)

(** X1.  [LABEL_MAP = dict(enumerate(classes_))] is looked up by key, not
    by position: a negative ID resolves to "Unknown" (it does not count
    from the end of [classes_]), an ID from 0 to len(classes_) - 1 resolves
    to the class name at that index, and a larger ID resolves to
    "Unknown". *)
Theorem label_map_resolves_by_index (classes_ : list string) (i : Z) :
  label_map_get (make_LABEL_MAP classes_) i "Unknown"
  = if (i <? 0)%Z then "Unknown" else nth (Z.to_nat i) classes_ "Unknown".
Proof.
  unfold label_map_get. rewrite make_LABEL_MAP_lookup.
  destruct (Z.ltb_spec i 0), (Z.leb_spec 0 i); try lia; [reflexivity |].
  rewrite nth_lookup. destruct (classes_ !! Z.to_nat i); reflexivity.
Qed.

(* ===================================================================== *)
(** ** Further properties: connections and store initialisation *)
(* ===================================================================== *)

(** X2.  [get_db_connection] never raises.  It returns [None] exactly when
    the file cannot be opened, and then it has printed one line and opened
    nothing; otherwise it returns a connection, one more connection is
    open, and nothing is printed.  Label map and file are untouched. *)
Theorem get_db_connection_never_raises (w : world) :
  exists conn w',
    get_db_connection w = (Ok conn, w')
    /\ (conn = None <-> disk w = Unopenable)
    /\ LABEL_MAP w' = LABEL_MAP w
    /\ disk w' = disk w
    /\ open_connections w'
       = (open_connections w + match conn with Some _ => 1 | None => 0 end)%nat
    /\ stdout w'
       = stdout w ++ match conn with
                     | Some _ => []
                     | None => ["Database connection error: unable to open database file"]
                     end.
Proof.
  destruct w as [labels file n out].
  destruct file as [| |db]; eexists; eexists; (split; [reflexivity |]); simpl;
    rewrite ?app_nil_r;
    (split; [split; [congruence | discriminate || reflexivity] |]);
    repeat split; lia.
Qed.


(* ===================================================================== *)
(** ** Further properties: how the endpoints fail *)
(* ===================================================================== *)

Section EndpointFailures.
Variable parse_int : string -> option Z.
Variable render_template : string -> dict py_value -> result string.

(** X4.  On a database file without the detections table (where [init_db]
    did not get to create it) every endpoint answers 500 with SQLite's
    message: the two JSON endpoints with the object
    {"error": "no such table: detections"}, the dashboard with the text
    "An error occurred: no such table: detections" and one printed line.
    The connection is closed and the file is left as it was. *)
Theorem endpoints_without_table (labels : gmap Z string) (n : nat) (out : list string) :
  let w := World labels (Database (Db None)) n out in
  api_stats parse_int w
  = (Ok (Jsonify (PyDict [("error", PyStr "no such table: detections")]), 500%Z), w)
  /\ api_detections parse_int w
     = (Ok (Jsonify (PyDict [("error", PyStr "no such table: detections")]), 500%Z), w)
  /\ dashboard parse_int render_template w
     = (Ok (Text "An error occurred: no such table: detections", 500%Z),
        World labels (Database (Db None)) n
          (out ++ ["Dashboard error: no such table: detections"])).
Proof. repeat split. Qed.

(** X5.  When the database file cannot be opened, [get_db_connection]
    returns [None] and every endpoint answers 500 with
    "Database connection error" (as JSON error object, or as text on the
    dashboard); the only trace is the line that [get_db_connection]
    prints, and no connection is left open. *)
Theorem endpoints_without_connection (labels : gmap Z string) (n : nat) (out : list string) :
  let w := World labels Unopenable n out in
  let logged :=
    World labels Unopenable n
      (out ++ ["Database connection error: unable to open database file"]) in
  api_stats parse_int w
  = (Ok (Jsonify (PyDict [("error", PyStr "Database connection error")]), 500%Z), logged)
  /\ api_detections parse_int w
     = (Ok (Jsonify (PyDict [("error", PyStr "Database connection error")]), 500%Z), logged)
  /\ dashboard parse_int render_template w
     = (Ok (Text "Database connection error", 500%Z), logged).
Proof. repeat split. Qed.



(** X8.  The dashboard shows what the two JSON endpoints return: the
    [detections] it hands to the template is the list that
    [api_detections] returns, and the [stats] it hands over is the object
    that [api_stats] returns, for the same store. *)
Theorem dashboard_shows_api_data (labels : gmap Z string) (rows : list row)
    (n : nat) (out : list string) :
  let w := World labels (detections_store rows) n out in
  exists items counts,
    api_detections parse_int w = (Ok (Jsonify (PyList items), 200%Z), w)
    /\ api_stats parse_int w = (Ok (Jsonify (PyDict counts), 200%Z), w)
    /\ dashboard parse_int render_template w
       = match render_template "dashboard.html"
                 [("detections", PyList items); ("stats", PyDict counts)] with
         | Ok page => (Ok (Text page, 200%Z), w)
         | Raise e =>
             (Ok (Text ("An error occurred: " ++ str_of_exn e), 500%Z),
              World labels (detections_store rows) n
                (out ++ [("Dashboard error: " ++ str_of_exn e)%string]))
         end.
Proof.
  intros w. subst w. eexists. eexists.
  split; [apply api_detections_run |].
  split; [apply api_stats_run |].
  apply dashboard_run.
Qed.
End EndpointFailures.

(* ===================================================================== *)
(** ** Further properties: the two queries *)
(* ===================================================================== *)

Lemma StronglySorted_app_cross {A : Type} (R : A -> A -> Prop) (l1 l2 : list A) :
  StronglySorted R (l1 ++ l2) ->
  forall a b, In a l1 -> In b l2 -> R a b.
Proof.
  induction l1 as [|x l1 IH]; simpl; intros Hs a b Ha Hb.
  - contradiction.
  - inversion Hs as [|? ? Hs' Hx]; subst. destruct Ha as [<-|Ha].
    + rewrite Forall_forall in Hx. apply Hx, list_elem_of_In, in_or_app. now right.
    + now apply IH.
Qed.

(** X9.  The recent-rows query keeps the newest rows: the store splits
    into the rows returned and the rows left out, no row of the store is
    lost or duplicated by the split, the rows left out are those beyond
    the limit in number, and none of them is newer than a returned row. *)
Theorem select_recent_keeps_newest (limit : nat) (rows : list row) :
  exists rest,
    Permutation rows (select_recent limit rows ++ rest)
    /\ length rest = length rows - limit
    /\ forall a b, In a (select_recent limit rows) -> In b rest -> not_older a b.
Proof.
  exists (skipn limit (order_by_timestamp_desc rows)). unfold select_recent.
  split; [| split].
  - rewrite firstn_skipn. symmetry. apply order_by_timestamp_desc_Permutation.
  - rewrite length_skipn.
    now rewrite (Permutation_length (order_by_timestamp_desc_Permutation rows)).
  - apply StronglySorted_app_cross. rewrite firstn_skipn.
    apply Sorted_StronglySorted; [intros a b c; apply not_older_trans |].
    apply order_by_timestamp_desc_Sorted.
Qed.

Lemma count_of_count_into (k c : Z) (groups : list (Z * Z)) :
  count_of k (count_into c groups)
  = (count_of k groups + if (c =? k)%Z then 1 else 0)%Z.
Proof.
  induction groups as [|[k' n'] groups IH]; simpl.
  - destruct (c =? k)%Z; reflexivity.
  - destruct (Z.eqb_spec c k') as [->|Hne]; simpl.
    + destruct (k' =? k)%Z; lia.
    + destruct (c <? k')%Z; simpl.
      * destruct (Z.eqb_spec c k), (Z.eqb_spec k' k); lia.
      * rewrite IH. destruct (k' =? k)%Z; lia.
Qed.

Lemma rows_with_cons (k : Z) (r : row) (rows : list row) :
  rows_with k (r :: rows)
  = ((if (classification r =? k)%Z then 1 else 0) + rows_with k rows)%Z.
Proof.
  unfold rows_with. simpl. destruct (classification r =? k)%Z; simpl length; lia.
Qed.

Lemma count_of_fold (k : Z) (rows : list row) (acc : list (Z * Z)) :
  count_of k (fold_left (fun groups r => count_into (classification r) groups) rows acc)
  = (count_of k acc + rows_with k rows)%Z.
Proof.
  revert acc. induction rows as [|r rows IH]; intros acc.
  - unfold rows_with. simpl. lia.
  - simpl fold_left. rewrite IH, count_of_count_into, rows_with_cons. lia.
Qed.

Lemma count_of_select_counts (k : Z) (rows : list row) :
  count_of k (select_counts rows) = rows_with k rows.
Proof. unfold select_counts. rewrite count_of_fold. reflexivity. Qed.

Lemma count_of_absent (k : Z) (groups : list (Z * Z)) :
  ~ In k (map fst groups) -> count_of k groups = 0%Z.
Proof.
  induction groups as [|[k' n'] groups IH]; simpl; intros Hk.
  - reflexivity.
  - destruct (Z.eqb_spec k' k) as [->|Hne]; [exfalso; apply Hk; now left |].
    apply IH. intros Hin. apply Hk. now right.
Qed.

Lemma count_of_In (k n : Z) (groups : list (Z * Z)) :
  NoDup (map fst groups) -> In (k, n) groups -> count_of k groups = n.
Proof.
  induction groups as [|[k' n'] groups IH]; simpl; intros Hnd Hin.
  - contradiction.
  - apply NoDup_cons in Hnd as [Hfresh Hnd]. destruct Hin as [[= -> ->]|Hin].
    + rewrite Z.eqb_refl, count_of_absent; [lia |].
      intros H. apply Hfresh, list_elem_of_In, H.
    + destruct (Z.eqb_spec k' k) as [->|Hne]; [| now apply IH].
      exfalso. apply Hfresh, list_elem_of_In.
      change k with (fst (k, n)). now apply in_map.
Qed.

Lemma count_of_nonzero (k : Z) (groups : list (Z * Z)) :
  count_of k groups <> 0%Z -> exists n, In (k, n) groups.
Proof.
  induction groups as [|[k' n'] groups IH]; simpl; intros Hk.
  - contradiction.
  - destruct (Z.eqb_spec k' k) as [->|Hne].
    + exists n'. now left.
    + destruct (IH Hk) as [n Hn]. exists n. now right.
Qed.

Lemma count_into_positive (c : Z) (groups : list (Z * Z)) :
  Forall (fun g => (0 < snd g)%Z) groups ->
  Forall (fun g => (0 < snd g)%Z) (count_into c groups).
Proof.
  induction groups as [|[k n] groups IH]; simpl; intros Hpos.
  - repeat constructor.
  - inversion Hpos as [|? ? Hn Hrest]; subst. simpl in Hn.
    destruct (c =? k)%Z; [| destruct (c <? k)%Z].
    + constructor; [simpl; lia | exact Hrest].
    + constructor; [simpl; lia | exact Hpos].
    + constructor; [exact Hn | apply IH, Hrest].
Qed.

Lemma select_counts_positive (rows : list row) :
  Forall (fun g => (0 < snd g)%Z) (select_counts rows).
Proof.
  unfold select_counts.
  assert (Hgen : forall acc, Forall (fun g => (0 < snd g)%Z) acc ->
            Forall (fun g => (0 < snd g)%Z)
              (fold_left (fun groups r => count_into (classification r) groups) rows acc)).
  { induction rows as [|r rows IH]; intros acc Hacc; simpl.
    - exact Hacc.
    - apply IH, count_into_positive, Hacc. }
  apply Hgen. constructor.
Qed.

Lemma rows_with_positive (r : row) (rows : list row) :
  In r rows -> (0 < rows_with (classification r) rows)%Z.
Proof.
  induction rows as [|r' rows IH]; simpl; intros Hin.
  - contradiction.
  - rewrite rows_with_cons. destruct Hin as [->|Hin].
    + rewrite Z.eqb_refl. unfold rows_with. lia.
    + specialize (IH Hin). destruct (classification r' =? classification r)%Z; lia.
Qed.

Lemma select_counts_In (rows : list row) (k n : Z) :
  In (k, n) (select_counts rows) <-> n = rows_with k rows /\ (0 < n)%Z.
Proof.
  split.
  - intros Hin. split.
    + rewrite <- count_of_select_counts. symmetry.
      apply count_of_In; [apply select_counts_keys | exact Hin].
    + pose proof (select_counts_positive rows) as Hpos.
      rewrite Forall_forall in Hpos.
      exact (Hpos (k, n) (proj2 (list_elem_of_In _ _) Hin)).
  - intros [-> Hpos]. rewrite <- count_of_select_counts in Hpos |- *.
    destruct (count_of_nonzero k (select_counts rows)) as [m Hm]; [lia |].
    rewrite (count_of_In k m _ (proj1 (select_counts_keys rows)) Hm). exact Hm.
Qed.

(** X10.  The grouping query counts rows: it returns the pair (k, n)
    exactly when n rows of the store carry the classification k and n is
    at least 1; a classification that no row carries gets no group, and no
    classification gets two. *)
Theorem grouping_counts_rows (rows : list row) (k n : Z) :
  (In (k, n) (select_counts rows) <-> n = rows_with k rows /\ (0 < n)%Z)
  /\ NoDup (map fst (select_counts rows)).
Proof. split; [apply select_counts_In | apply select_counts_keys]. Qed.

Lemma select_counts_key_iff (rows : list row) (k : Z) :
  In k (map fst (select_counts rows)) <-> In k (map classification rows).
Proof.
  split; [apply select_counts_keys |].
  intros Hk. apply in_map_iff in Hk as (r & <- & Hr).
  apply in_map_iff. exists (classification r, rows_with (classification r) rows).
  split; [reflexivity |].
  apply select_counts_In. split; [reflexivity | now apply rows_with_positive].
Qed.

Lemma dict_get_Some_keys {V : Type} (k : string) (v : V) (d : dict V) :
  dict_get k d = Some v -> In k (dict_keys d).
Proof.
  induction d as [|[k0 v0] d IH]; simpl; [discriminate |].
  destruct (String.eqb_spec k0 k) as [->|Hne]; [now left | right; now apply IH].
Qed.

Lemma dict_keys_set_In {V : Type} (k x : string) (v : V) (d : dict V) :
  In x (dict_keys (dict_set k v d)) <-> x = k \/ In x (dict_keys d).
Proof.
  rewrite dict_keys_set. destruct (dict_get k d) as [v'|] eqn:Hk.
  - split; [now right | intros [->|H]; [| exact H]].
    exact (dict_get_Some_keys _ _ _ Hk).
  - rewrite in_app_iff. simpl. split.
    + intros [H|[<-|[]]]; [now right | now left].
    + intros [->|H]; [right; now left | now left].
Qed.

Lemma label_buckets_keys_In (labels : gmap Z string) (gs : list (Z * Z))
    (acc : dict py_value) (x : string) :
  In x (dict_keys (label_buckets labels gs acc))
  <-> In x (dict_keys acc)
      \/ exists g, In g gs /\ label_map_get labels (fst g) "Unknown" = x.
Proof.
  revert acc. induction gs as [|g gs IH]; intros acc; simpl.
  - split; [now left | intros [H|(g & [] & _)]; exact H].
  - rewrite IH, dict_keys_set_In. split.
    + intros [[->|H]|(g' & Hg' & Hl)].
      * right. exists g. split; [now left | reflexivity].
      * now left.
      * right. exists g'. split; [now right | exact Hl].
    + intros [H|(g' & [<-|Hg'] & Hl)].
      * left. now right.
      * left. now left.
      * right. exists g'. split; assumption.
Qed.

Section StoreContents.
Variable parse_int : string -> option Z.

(** X11.  The list endpoint drops no row below its limit: on a store of
    n rows it returns min(100, n) objects. *)
Theorem api_detections_item_count (labels : gmap Z string) (rows : list row)
    (n : nat) (out : list string) :
  exists items,
    api_detections parse_int (World labels (detections_store rows) n out)
    = (Ok (Jsonify (PyList items), 200%Z), World labels (detections_store rows) n out)
    /\ length items = Nat.min 100 (length rows).
Proof.
  eexists. split; [apply api_detections_run |].
  rewrite !length_map. apply select_recent_length.
Qed.

(** X12.  For a stored row whose label no row with another classification
    ID shares, the stats object maps that label to the number of rows that
    carry the row's classification ID. *)
Theorem api_stats_unshared_label_count (labels : gmap Z string) (rows : list row)
    (n : nat) (out : list string) (r : row) :
  In r rows ->
  (forall r', In r' rows -> label_of labels r' = label_of labels r ->
     classification r' = classification r) ->
  exists counts,
    api_stats parse_int (World labels (detections_store rows) n out)
    = (Ok (Jsonify (PyDict counts), 200%Z), World labels (detections_store rows) n out)
    /\ dict_get (label_of labels r) counts
       = Some (PyInt (rows_with (classification r) rows)).
Proof.
  intros Hr Hunshared. eexists. split; [apply api_stats_run |].
  assert (Hin : In (classification r, rows_with (classification r) rows)
                  (select_counts rows)).
  { apply select_counts_In. split; [reflexivity | now apply rows_with_positive]. }
  destruct (in_split _ _ Hin) as (before & after & Hsplit).
  pose proof (proj1 (select_counts_keys rows)) as Hnd.
  rewrite Hsplit in Hnd |- *. rewrite label_buckets_app. simpl.
  rewrite label_buckets_get_other; [apply dict_get_set_same |].
  apply Forall_forall. intros g Hg Hlabel.
  apply list_elem_of_In in Hg.
  assert (Hkey : In (fst g) (map classification rows)).
  { apply select_counts_keys. rewrite Hsplit, map_app, in_app_iff. right. right.
    now apply in_map. }
  apply in_map_iff in Hkey as (r' & Hr' & Hin').
  assert (Heq : fst g = classification r).
  { rewrite <- Hr'. apply Hunshared; [exact Hin' |].
    unfold label_of. rewrite Hr'. exact Hlabel. }
  rewrite map_app in Hnd. apply NoDup_app in Hnd as (_ & _ & Hnd).
  simpl in Hnd. apply NoDup_cons in Hnd as [Hfresh _].
  apply Hfresh, list_elem_of_In. rewrite <- Heq. now apply in_map.
Qed.

(** X13.  The stats object has one key per label that occurs in the
    store: every key is the label of some stored row, the label of every
    stored row is a key, and no key occurs twice. *)
Theorem api_stats_keys_are_store_labels (labels : gmap Z string) (rows : list row)
    (n : nat) (out : list string) :
  exists counts,
    api_stats parse_int (World labels (detections_store rows) n out)
    = (Ok (Jsonify (PyDict counts), 200%Z), World labels (detections_store rows) n out)
    /\ NoDup (dict_keys counts)
    /\ forall key, In key (dict_keys counts)
                   <-> exists r, In r rows /\ label_of labels r = key.
Proof.
  eexists. split; [apply api_stats_run |].
  split; [apply label_buckets_keys_NoDup; constructor |].
  intros key. rewrite label_buckets_keys_In. unfold label_of. split.
  - intros [[]|(g & Hg & Hl)].
    assert (Hk : In (fst g) (map classification rows)).
    { apply select_counts_key_iff. now apply in_map. }
    apply in_map_iff in Hk as (r & Hr & Hin).
    exists r. split; [exact Hin | now rewrite Hr].
  - intros (r & Hin & Hl). right.
    assert (Hk : In (classification r) (map fst (select_counts rows))).
    { apply select_counts_key_iff. now apply in_map. }
    apply in_map_iff in Hk as (g & Hg & Hing).
    exists g. split; [exact Hing | now rewrite Hg].
Qed.

(** X14.  Right after the module is imported against a database file
    without tables, the store is usable and empty: the list endpoint
    answers 200 with an empty list, the stats endpoint 200 with an empty
    object, and neither changes the state. *)
Theorem endpoints_after_fresh_import (classes_ : list string) :
  let w := snd (import_app classes_ (Database (Db None))) in
  fst (import_app classes_ (Database (Db None))) = Ok tt
  /\ api_detections parse_int w = (Ok (Jsonify (PyList []), 200%Z), w)
  /\ api_stats parse_int w = (Ok (Jsonify (PyDict []), 200%Z), w).
Proof.
  rewrite import_app_fresh. simpl. split; [reflexivity |].
  split; [apply api_detections_run | apply api_stats_run].
Qed.
End StoreContents.

Lemma api_stats_unshared_label_count_witness :
  exists counts,
    api_stats (fun _ => None)
      (World example_labels (detections_store example_store_rows) 0 [])
    = (Ok (Jsonify (PyDict counts), 200%Z),
       World example_labels (detections_store example_store_rows) 0 [])
    /\ dict_get "BENIGN" counts = Some (PyInt 3).
Proof.
  apply (api_stats_unshared_label_count (fun _ => None) example_labels
           example_store_rows 0 [] (Row 2 (example_time 7) "10.0.0.5" "10.0.0.9" 0)).
  - simpl. right. left. reflexivity.
  - intros r' Hr'. simpl in Hr'.
    destruct Hr' as [<-|[<-|[<-|[<-|[<-|[<-|[<-|[]]]]]]]];
      vm_compute; intros Heq; first [reflexivity | discriminate Heq].
Defined.

(* ===================================================================== *)
(** ** Further properties: the timestamp display filter *)
(* ===================================================================== *)

Lemma string_length_append (s1 s2 : string) :
  String.length (s1 ++ s2) = String.length s1 + String.length s2.
Proof. induction s1 as [|c s1 IH]; simpl; [reflexivity | now rewrite IH]. Qed.

Lemma decimal_digits_length (width : nat) (n : Z) :
  String.length (decimal_digits width n) = width.
Proof.
  revert n. induction width as [|w IH]; intros n; simpl.
  - reflexivity.
  - rewrite string_length_append, IH. simpl. lia.
Qed.

Lemma strftime_length (d : datetime) : String.length (strftime d) = 19.
Proof.
  unfold strftime.
  repeat (rewrite string_length_append || rewrite decimal_digits_length).
  reflexivity.
Qed.

Section TimestampDisplayFacts.
Variable parse_float : string -> option float.
Variable localtime : Z -> result struct_time.

(** The filter sees its argument through [float()]: a value that
    [float()] converts is displayed exactly as the float it converts to, so
    a timestamp held as an integer or as numeric text shows the same text
    as the equal float. *)
Lemma datetime_filter_through_float (value : py_value) (f : float) :
  py_float parse_float value = Ok f ->
  datetime_filter parse_float localtime value
  = datetime_filter parse_float localtime (PyFloat f).
Proof.
  intros Hf. unfold datetime_filter. rewrite Hf. reflexivity.
Qed.

(** X15.  The filter answers "Invalid timestamp", and does not raise, for
    every value on which [float()] raises [TypeError] or [ValueError]
    ([None], a list, a dict, text that is not a float literal) and for the
    float NaN. *)
Theorem datetime_filter_placeholder (s : string) (items : list py_value)
    (entries : list (string * py_value)) :
  parse_float s = None ->
  datetime_filter parse_float localtime (PyStr s) = Ok "Invalid timestamp"
  /\ datetime_filter parse_float localtime PyNone = Ok "Invalid timestamp"
  /\ datetime_filter parse_float localtime (PyList items) = Ok "Invalid timestamp"
  /\ datetime_filter parse_float localtime (PyDict entries) = Ok "Invalid timestamp"
  /\ datetime_filter parse_float localtime (PyFloat S754_nan) = Ok "Invalid timestamp".
Proof.
  intros Hs. repeat split. unfold datetime_filter, py_float. rewrite Hs. reflexivity.
Qed.

(** X16.  A timestamp that lies within [time_t] but whose local year is
    outside 1..9999 is a [ValueError] of [fromtimestamp]; the filter
    catches it and answers "Invalid timestamp". *)
Theorem datetime_filter_year_outside_range (t : float) (sec us : Z) (tm : struct_time) :
  timestamp_to_timeval t = Ok (sec, us) ->
  localtime sec = Ok tm ->
  (tm_year tm < 1 \/ 9999 < tm_year tm)%Z ->
  datetime_filter parse_float localtime (PyFloat t) = Ok "Invalid timestamp".
Proof.
  intros Htv Htm Hyear. unfold datetime_filter, fromtimestamp. simpl.
  rewrite Htv. simpl. rewrite Htm. simpl. unfold MINYEAR, MAXYEAR.
  destruct (Z.leb_spec 1 (tm_year tm)), (Z.leb_spec (tm_year tm) 9999);
    simpl; try reflexivity; lia.
Qed.

(** X17.  A timestamp that converts, with a local year from 1000 to 9999,
    is displayed as the 19 characters [YYYY-MM-DD HH:MM:SS] of the local
    time that the platform reports for its whole seconds (after the
    fraction is rounded to microseconds), a leap second 60 shown as 59. *)
Theorem datetime_filter_displays_local_time (t : float) (sec us : Z) (tm : struct_time) :
  timestamp_to_timeval t = Ok (sec, us) ->
  localtime sec = Ok tm ->
  (1000 <= tm_year tm <= 9999)%Z ->
  exists text,
    datetime_filter parse_float localtime (PyFloat t) = Ok text
    /\ String.length text = 19
    /\ text = (decimal_digits 4 (tm_year tm) ++ "-" ++ decimal_digits 2 (tm_mon tm)
               ++ "-" ++ decimal_digits 2 (tm_mday tm) ++ " "
               ++ decimal_digits 2 (tm_hour tm) ++ ":" ++ decimal_digits 2 (tm_min tm)
               ++ ":" ++ decimal_digits 2 (Z.min (tm_sec tm) 59))%string.
Proof.
  intros Htv Htm Hyear. eexists. split; [| split; [| reflexivity]].
  - unfold datetime_filter, fromtimestamp. simpl.
    rewrite Htv. simpl. rewrite Htm. simpl. unfold MINYEAR, MAXYEAR.
    destruct (Z.leb_spec 1 (tm_year tm)), (Z.leb_spec (tm_year tm) 9999);
      simpl; try lia. reflexivity.
  - apply (strftime_length (Datetime (tm_year tm) (tm_mon tm) (tm_mday tm)
             (tm_hour tm) (tm_min tm) (Z.min (tm_sec tm) 59) us)).
Qed.
End TimestampDisplayFacts.

Lemma datetime_filter_placeholder_witness :
  datetime_filter (fun _ => None) example_localtime (PyStr "not-a-number")
  = Ok "Invalid timestamp"
  /\ datetime_filter (fun _ => None) example_localtime PyNone = Ok "Invalid timestamp"
  /\ datetime_filter (fun _ => None) example_localtime (PyList []) = Ok "Invalid timestamp"
  /\ datetime_filter (fun _ => None) example_localtime (PyDict []) = Ok "Invalid timestamp"
  /\ datetime_filter (fun _ => None) example_localtime (PyFloat S754_nan)
     = Ok "Invalid timestamp".
Proof.
  apply (datetime_filter_placeholder (fun _ => None) example_localtime
           "not-a-number" [] []).
  reflexivity.
Defined.

Lemma datetime_filter_year_outside_range_witness :
  datetime_filter (fun _ => None) example_far_localtime
    (PyFloat (example_time 1000000000000))
  = Ok "Invalid timestamp".
Proof.
  apply (datetime_filter_year_outside_range (fun _ => None) example_far_localtime
           (example_time 1000000000000) 1000000000000 0
           (StructTime 33658 9 27 1 46 40)).
  - vm_compute. reflexivity.
  - reflexivity.
  - right. simpl. lia.
Defined.

Lemma datetime_filter_displays_local_time_witness :
  exists text,
    datetime_filter (fun _ => None) example_localtime
      (PyFloat (binary_normalize PREC EMAX 7385 (-1) false))
    = Ok text
    /\ String.length text = 19
    /\ text = "1970-01-01 01:01:32".
Proof.
  apply (datetime_filter_displays_local_time (fun _ => None) example_localtime
           (binary_normalize PREC EMAX 7385 (-1) false) 3692 500000
           (StructTime 1970 1 1 1 1 32)).
  - vm_compute. reflexivity.
  - reflexivity.
  - simpl. lia.
Defined.
